(** * svcat provision: the command's validation and execution paths

  A shallow embedding of [cmd/svcat/instance/provision_cmd.go]:
  the methods [Validate], [Run] and [Provision] of [ProvisionCmd],
  over the packages the command calls into ([parameters],
  [servicecatalog], [output], [fmt]).  Every call that leaves the
  command is recorded, in order, in a trace of events, so that
  statements about which collaborator is called, with what, and how
  often can be read off the trace. *)

From Stdlib Require Import ZArith Ascii String.
From stdpp Require Import base strings list gmap.

Set Default Proof Using "Type".
Local Open Scope string_scope.
Local Open Scope Z_scope.
Local Open Scope list_scope.

(** ** Go values used by the command *)

Module Go.

(** A Go [error] value, identified with what its [Error()] method
    returns.  [None : option error] is Go's [nil] error. *)
Record error : Type := mkError { Error : string }.

#[global] Instance error_eq_dec : EqDecision error.
Proof. solve_decision. Defined.

(** [fmt.Errorf(msg)] with no verb. *)
Definition Errorf0 (msg : string) : error := mkError msg.

(** [fmt.Errorf(prefix + " (%s)", err)]: the [%s] verb prints
    [err.Error()]. *)
Definition Errorf1 (prefix : string) (err : error) : error :=
  mkError (prefix +:+ " (" +:+ Error err +:+ ")").

(** [time.Duration] is an [int64] count of nanoseconds. *)
Definition Duration : Type := Z.

#[local] Set Warnings "-register-all".

(** A decoded JSON value ([interface{}] after [json.Unmarshal]).  A
    number keeps its literal text. *)
Inductive JSON : Type :=
| JNull
| JBool (b : bool)
| JNumber (literal : string)
| JString (s : string)
| JArray (items : list JSON)
| JObject (fields : list (string * JSON)).

End Go.
Export Go.

(** [map[string]interface{}] and [map[string]string]. *)
Abbreviation ParameterSet := (gmap string JSON).
Abbreviation SecretReferenceSet := (gmap string string).

(** ** Strings *)

Module strings.

(** [containsChar c s]: the byte [c] occurs in [s]. *)
Fixpoint containsChar (c : ascii) (s : string) : bool :=
  match s with
  | EmptyString => false
  | String a rest => if Ascii.eqb a c then true else containsChar c rest
  end.

(** [Cut s sep] for a one-byte separator: the text before and after
    the first [sep], or [None] when [sep] does not occur.  It is
    [strings.SplitN(s, sep, 2)] returning fewer than two parts in the
    [None] case. *)
Fixpoint Cut (sep : ascii) (s : string) : option (string * string) :=
  match s with
  | EmptyString => None
  | String a rest =>
      if Ascii.eqb a sep then Some (EmptyString, rest)
      else match Cut sep rest with
           | Some (before, after) => Some (String a before, after)
           | None => None
           end
  end.

End strings.

(** ** Package [parameters] *)

Module parameters.

(** The error kinds of the parsers.  The spec names the kinds; the
    text for a secret reference is the one the command's tests
    expect, and the text for an assignment is worded after it. *)
Definition MalformedAssignment (token : string) : error :=
  mkError ("invalid parameter (" +:+ token +:+ "), must be in NAME=VALUE format").

Definition MalformedSecretReference (token : string) : error :=
  mkError ("invalid parameter (" +:+ token +:+ "), must be in MAP[KEY] format").

(** Modelled from the spec: [parameters.ParseVariableAssignments]
    lives in [cmd/svcat/parameters], which is not part of the sources
    at hand.  Spec 4.1: split each token on the first [=]; fail with
    [MalformedAssignment] if no [=] is present or the name portion is
    empty; duplicate names: last one wins, no error; each value is
    taken as a plain string.  The loop threads the map built so far,
    and an error discards it. *)
Fixpoint assignLoop (variables : ParameterSet) (params : list string)
  : ParameterSet + error :=
  match params with
  | [] => inl variables
  | p :: rest =>
      match strings.Cut "=" p with
      | None => inr (MalformedAssignment p)
      | Some (name, value) =>
          if bool_decide (name = "") then inr (MalformedAssignment p)
          else assignLoop (<[name := JString value]> variables) rest
      end
  end.

(** The Go shape of a fallible result: a value and an error, the
    value [nil] when the error is set. *)
Definition goResult {T : Type} (r : T + error) : option T * option error :=
  match r with
  | inl v => (Some v, None)
  | inr e => (None, Some e)
  end.

Definition ParseVariableAssignments (params : list string)
  : option ParameterSet * option error :=
  goResult (assignLoop ∅ params).

(** Modelled from the spec: [parameters.ParseKeyMaps] is in the same
    absent package.  Spec 4.2: each token must match [name[key]]
    exactly, [name] and [key] non-empty and free of brackets; fail
    with [MalformedSecretReference] otherwise, echoing the token; a
    later duplicate [name] overwrites an earlier one.  The result has
    the type of the command's [Secrets] field, [map[string]string]. *)
Definition parseKeyMap (token : string) : option (string * string) :=
  match strings.Cut "[" token with
  | None => None
  | Some (name, rest) =>
      match strings.Cut "]" rest with
      | None => None
      | Some (key, trailer) =>
          if bool_decide (name ≠ "" ∧ key ≠ "" ∧ trailer = "")
             && negb (strings.containsChar "]" name)
             && negb (strings.containsChar "[" key)
          then Some (name, key) else None
      end
  end.

Fixpoint keyMapLoop (keymaps : SecretReferenceSet) (params : list string)
  : SecretReferenceSet + error :=
  match params with
  | [] => inl keymaps
  | p :: rest =>
      match parseKeyMap p with
      | None => inr (MalformedSecretReference p)
      | Some (name, key) => keyMapLoop (<[name := key]> keymaps) rest
      end
  end.

Definition ParseKeyMaps (params : list string)
  : option SecretReferenceSet * option error :=
  goResult (keyMapLoop ∅ params).

(** A token [NAME=VALUE], and what makes it well formed: a non-empty
    [NAME] with no [=] in it ([VALUE] is free). *)
Definition assignment (nv : string * string) : string :=
  nv.1 +:+ "=" +:+ nv.2.

Definition wellFormedName (name : string) : Prop :=
  name ≠ "" ∧ strings.containsChar "=" name = false.

(** One step of the parser's loop on a well-formed token. *)
Definition assign1 (variables : ParameterSet) (nv : string * string) : ParameterSet :=
  <[nv.1 := JString nv.2]> variables.

End parameters.

(** ** Package [v1beta1]: the instance snapshot *)

Module v1beta1.

(** [v1beta1.ServiceInstance] as far as the command looks into it: the
    [Name] and [Namespace] of its [ObjectMeta].  [Status] stands for
    the rest of the object, which the command only passes on. *)
Record ServiceInstance : Type := mkServiceInstance {
  Name : string;
  Namespace : string;
  Status : string;
}.

#[global] Instance ServiceInstance_eq_dec : EqDecision ServiceInstance.
Proof. solve_decision. Defined.

End v1beta1.

(** ** Package [servicecatalog]: the client the command talks to *)

Module servicecatalog.

(** The fields the command sets in [servicecatalog.ProvisionOptions]. *)
Record ProvisionOptions : Type := mkProvisionOptions {
  ExternalID : string;
  Namespace : string;
  Params : option ParameterSet;
  Secrets : option SecretReferenceSet;
}.

(** The two methods of the [SvcatClient] interface the command calls.
    A client is a value of a state type [A]; a call returns Go's pair
    of a [*ServiceInstance] (possibly [nil]) and an [error] (possibly
    [nil]), and the client after the call. *)
Class SvcatClient (A : Type) : Type := {
  Provision :
    A -> string -> string -> string -> ProvisionOptions ->
    (option v1beta1.ServiceInstance * option error) * A;
  WaitForInstance :
    A -> string -> string -> Duration -> Duration ->
    (option v1beta1.ServiceInstance * option error) * A;
}.

End servicecatalog.

(** ** Package [instance]: the provision command *)

Module instance.

(** [ProvisionCmd], with the embedded [*command.Namespaced] and
    [*command.Waitable] flattened into the fields the methods read:
    [Namespace], and [Wait], [Interval], [Timeout].  [Params] is an
    [interface{}] holding [nil] or a parameter map; [Secrets] is a map
    or [nil]. *)
Record ProvisionCmd : Type := mkProvisionCmd {
  Namespace : string;
  Wait : bool;
  Interval : Duration;
  Timeout : Duration;
  InstanceName : string;
  ExternalID : string;
  ClassName : string;
  PlanName : string;
  RawParams : list string;
  JsonParams : string;
  Params : option ParameterSet;
  RawSecrets : list string;
  Secrets : option SecretReferenceSet;
}.

(** The zero value [ProvisionCmd{}] with empty embedded structs. *)
Definition zero : ProvisionCmd :=
  {| Namespace := ""; Wait := false; Interval := 0; Timeout := 0;
     InstanceName := ""; ExternalID := ""; ClassName := ""; PlanName := "";
     RawParams := []; JsonParams := ""; Params := None;
     RawSecrets := []; Secrets := None |}.

(** Field assignments [c.InstanceName = v], [c.Params = v],
    [c.Secrets = v]. *)
Definition set_InstanceName (v : string) (c : ProvisionCmd) : ProvisionCmd :=
  {| Namespace := Namespace c; Wait := Wait c; Interval := Interval c;
     Timeout := Timeout c; InstanceName := v; ExternalID := ExternalID c;
     ClassName := ClassName c; PlanName := PlanName c;
     RawParams := RawParams c; JsonParams := JsonParams c;
     Params := Params c; RawSecrets := RawSecrets c; Secrets := Secrets c |}.

Definition set_Params (v : option ParameterSet) (c : ProvisionCmd) : ProvisionCmd :=
  {| Namespace := Namespace c; Wait := Wait c; Interval := Interval c;
     Timeout := Timeout c; InstanceName := InstanceName c;
     ExternalID := ExternalID c; ClassName := ClassName c;
     PlanName := PlanName c; RawParams := RawParams c;
     JsonParams := JsonParams c; Params := v; RawSecrets := RawSecrets c;
     Secrets := Secrets c |}.

Definition set_Secrets (v : option SecretReferenceSet) (c : ProvisionCmd) : ProvisionCmd :=
  {| Namespace := Namespace c; Wait := Wait c; Interval := Interval c;
     Timeout := Timeout c; InstanceName := InstanceName c;
     ExternalID := ExternalID c; ClassName := ClassName c;
     PlanName := PlanName c; RawParams := RawParams c;
     JsonParams := JsonParams c; Params := Params c;
     RawSecrets := RawSecrets c; Secrets := v |}.

(** What the command does to the outside, in the order it does it:
    calls into package [parameters], calls on [c.App], and writes to
    [c.Output] (through [fmt.Fprintln] and
    [output.WriteInstanceDetails]). *)
Inductive Event : Type :=
| CallParseVariableJSON (doc : string)
| CallParseVariableAssignments (params : list string)
| CallParseKeyMaps (params : list string)
| CallProvision (instanceName className planName : string)
    (opts : servicecatalog.ProvisionOptions)
| CallWaitForInstance (ns name : string) (interval timeout : Duration)
| Fprintln (line : string)
| WriteInstanceDetails (instance : option v1beta1.ServiceInstance).

(** The receiver [c] as a method sees it: its own fields, the client
    [c.App], and the trace of what has left the command so far. *)
Record State (A : Type) : Type := mkState {
  self : ProvisionCmd;
  App : A;
  trace : list Event;
}.
Arguments mkState {A} _ _ _.
Arguments self {A} _.
Arguments App {A} _.
Arguments trace {A} _.

(** A method either returns or panics (a [nil] dereference); the state
    is the one reached at that point. *)
Inductive Outcome (X : Type) : Type :=
| Return (x : X)
| Panic (reason : string).
Arguments Return {X} _.
Arguments Panic {X} _.

Definition M (A X : Type) : Type := State A -> Outcome X * State A.

#[global] Instance M_ret {A} : MRet (M A) :=
  fun X (x : X) st => (Return x, st).

#[global] Instance M_bind {A} : MBind (M A) :=
  fun X Y (k : X -> M A Y) (m : M A X) st =>
    match m st with
    | (Return x, st') => k x st'
    | (Panic reason, st') => (Panic reason, st')
    end.

(** Read a field of the receiver. *)
Definition field {A X} (f : ProvisionCmd -> X) : M A X :=
  fun st => (Return (f (self st)), st).

(** Assign to a field of the receiver. *)
Definition assign {A} (f : ProvisionCmd -> ProvisionCmd) : M A unit :=
  fun st => (Return tt, mkState (f (self st)) (App st) (trace st)).

(** Record an event at the end of the trace. *)
Definition emit {A} (e : Event) : M A unit :=
  fun st => (Return tt, mkState (self st) (App st) (trace st ++ [e])).

(** Call a function of another package: the call is recorded, the
    function's result returned. *)
Definition call {A X} (e : Event) (result : X) : M A X :=
  _ ← emit e; mret result.

(** Call a method of [c.App]: the call is recorded and the client
    moves to its next state. *)
Definition callApp {A X} (e : Event) (method : A -> X * A) : M A X :=
  fun st =>
    let '(x, app') := method (App st) in
    (Return x, mkState (self st) app' (trace st ++ [e])).

(** Dereference a pointer: [nil] panics. *)
Definition deref {A X} (p : option X) : M A X :=
  fun st =>
    match p with
    | Some x => (Return x, st)
    | None => (Panic "invalid memory address or nil pointer dereference", st)
    end.

Section Methods.

Context {A : Type} `{!servicecatalog.SvcatClient A}.

(** The three parsers of package [parameters], with their Go
    signatures: a value and an error. *)
Variable ParseVariableJSON : string -> option ParameterSet * option error.
Variable ParseVariableAssignments : list string -> option ParameterSet * option error.
Variable ParseKeyMaps : list string -> option SecretReferenceSet * option error.

(** The [if c.JsonParams != "" { ... } else { ... }] statement of
    [Validate]: it assigns [c.Params] and yields the error the
    enclosing function returns from inside the branch, if any. *)
Definition parseParams : M A (option error) :=
  jsonParams ← field JsonParams;
  if bool_decide (jsonParams ≠ "") then
    jsonParams ← field JsonParams;
    '(params, err) ← call (CallParseVariableJSON jsonParams)
                          (ParseVariableJSON jsonParams);
    _ ← assign (set_Params params);
    mret (Errorf1 "invalid --params-json value" <$> err)
  else
    rawParams ← field RawParams;
    '(params, err) ← call (CallParseVariableAssignments rawParams)
                          (ParseVariableAssignments rawParams);
    _ ← assign (set_Params params);
    mret (Errorf1 "invalid --param value" <$> err).

Definition Validate (args : list string) : M A (option error) :=
  match args with
  | [] => mret (Some (Errorf0 "an instance name is required"))
  | arg0 :: _ =>
      _ ← assign (set_InstanceName arg0);
      jsonParams ← field JsonParams;
      rawParams ← field RawParams;
      if bool_decide (jsonParams ≠ "") && bool_decide (0 < length rawParams)%nat then
        mret (Some (Errorf0 "--params-json cannot be used with --param"))
      else
        err ← parseParams;
        match err with
        | Some e => mret (Some e)
        | None =>
            rawSecrets ← field RawSecrets;
            '(secrets, err) ← call (CallParseKeyMaps rawSecrets)
                                   (ParseKeyMaps rawSecrets);
            _ ← assign (set_Secrets secrets);
            match err with
            | Some e => mret (Some (Errorf1 "invalid --secret value" e))
            | None => mret None
            end
        end
  end.

Definition Provision : M A (option error) :=
  externalID ← field ExternalID;
  namespace ← field Namespace;
  params ← field Params;
  secrets ← field Secrets;
  let opts := servicecatalog.mkProvisionOptions externalID namespace params secrets in
  instanceName ← field InstanceName;
  className ← field ClassName;
  planName ← field PlanName;
  '(instance, err) ← callApp (CallProvision instanceName className planName opts)
                       (fun app => servicecatalog.Provision app instanceName className planName opts);
  match err with
  | Some e => mret (Some e)
  | None =>
      wait ← field Wait;
      if (wait : bool) then
        _ ← emit (Fprintln "Waiting for the instance to be provisioned...");
        inst ← deref instance;
        interval ← field Interval;
        timeout ← field Timeout;
        '(finalInstance, err) ←
          callApp (CallWaitForInstance (v1beta1.Namespace inst) (v1beta1.Name inst) interval timeout)
            (fun app => servicecatalog.WaitForInstance app
                          (v1beta1.Namespace inst) (v1beta1.Name inst) interval timeout);
        let instance := match err with None => finalInstance | Some _ => instance end in
        _ ← emit (WriteInstanceDetails instance);
        mret err
      else
        _ ← emit (WriteInstanceDetails instance);
        mret None
  end.

Definition Run : M A (option error) := Provision.

(** The parser call the [if]/[else] of [Validate] makes for a
    receiver [c], what it returns, and the context its error is
    wrapped in. *)
Definition paramSource (c : ProvisionCmd) : Event :=
  if bool_decide (JsonParams c ≠ "")
  then CallParseVariableJSON (JsonParams c)
  else CallParseVariableAssignments (RawParams c).

Definition paramResult (c : ProvisionCmd) : option ParameterSet * option error :=
  if bool_decide (JsonParams c ≠ "")
  then ParseVariableJSON (JsonParams c)
  else ParseVariableAssignments (RawParams c).

Definition paramContext (c : ProvisionCmd) : string :=
  if bool_decide (JsonParams c ≠ "")
  then "invalid --params-json value"
  else "invalid --param value".

(** The error a recorded parser call came back with. *)
Definition parserError (e : Event) : option error :=
  match e with
  | CallParseVariableJSON doc => snd (ParseVariableJSON doc)
  | CallParseVariableAssignments params => snd (ParseVariableAssignments params)
  | CallParseKeyMaps params => snd (ParseKeyMaps params)
  | _ => None
  end.

(** The state after the parameter step of [Validate], and the secrets
    step that follows when the parameter step returned no error. *)
Definition afterParams (arg0 : string) (st : State A) : State A :=
  mkState (set_Params (fst (paramResult (self st))) (set_InstanceName arg0 (self st)))
          (App st) (trace st ++ [paramSource (self st)]).

Definition secretsStep (st : State A) : Outcome (option error) * State A :=
  (Return (Errorf1 "invalid --secret value" <$> snd (ParseKeyMaps (RawSecrets (self st)))),
   mkState (set_Secrets (fst (ParseKeyMaps (RawSecrets (self st)))) (self st)) (App st)
           (trace st ++ [CallParseKeyMaps (RawSecrets (self st))])).

End Methods.

(** The two errors [Validate] raises itself. *)
Definition MissingInstanceName : error := Errorf0 "an instance name is required".
Definition ConflictingParamSources : error :=
  Errorf0 "--params-json cannot be used with --param".

(** The state after [c.InstanceName = args[0]]. *)
Definition named {A} (arg0 : string) (st : State A) : State A :=
  mkState (set_InstanceName arg0 (self st)) (App st) (trace st).

(** The mutual-exclusion test of [Validate], as a proposition. *)
Definition conflicting (c : ProvisionCmd) : Prop :=
  JsonParams c ≠ "" ∧ RawParams c ≠ [].


Definition isProvisionCall (e : Event) : bool :=
  match e with
  | CallProvision _ _ _ _ => true
  | _ => false
  end.

Definition isWaitForInstanceCall (e : Event) : bool :=
  match e with
  | CallWaitForInstance _ _ _ _ => true
  | _ => false
  end.

Definition isWriteInstanceDetails (e : Event) : bool :=
  match e with
  | WriteInstanceDetails _ => true
  | _ => false
  end.

(** The options [Provision] builds from the receiver. *)
Definition optsOf (c : ProvisionCmd) : servicecatalog.ProvisionOptions :=
  servicecatalog.mkProvisionOptions (ExternalID c) (Namespace c) (Params c) (Secrets c).

(** The events that are calls into package [parameters]. *)
Definition isParserCall (e : Event) : bool :=
  match e with
  | CallParseVariableJSON _ | CallParseVariableAssignments _ | CallParseKeyMaps _ => true
  | _ => false
  end.

(** The line [Provision] prints before it polls. *)
Definition waitingLine : Event :=
  Fprintln "Waiting for the instance to be provisioned...".

End instance.

(** ** Test doubles *)

Module servicecatalogfakes.

(** The fake client of the command's tests: each method returns what
    it was told to return and counts its calls. *)
Record FakeSvcatClient : Type := mkFake {
  provisionReturns : option v1beta1.ServiceInstance * option error;
  waitForInstanceReturns : option v1beta1.ServiceInstance * option error;
  provisionCallCount : nat;
  waitForInstanceCallCount : nat;
}.

#[global] Instance FakeSvcatClient_client : servicecatalog.SvcatClient FakeSvcatClient := {
  Provision f _ _ _ _ :=
    (provisionReturns f,
     mkFake (provisionReturns f) (waitForInstanceReturns f)
            (S (provisionCallCount f)) (waitForInstanceCallCount f));
  WaitForInstance f _ _ _ _ :=
    (waitForInstanceReturns f,
     mkFake (provisionReturns f) (waitForInstanceReturns f)
            (provisionCallCount f) (S (waitForInstanceCallCount f)));
}.

(** The instance the test's fake hands back, and the same instance
    once it is ready. *)
Definition instanceToReturn : v1beta1.ServiceInstance :=
  v1beta1.mkServiceInstance "mysql1234" "foobarnamespace" "Provisioning".

Definition readyInstance : v1beta1.ServiceInstance :=
  v1beta1.mkServiceInstance "mysql1234" "foobarnamespace" "Ready".

(** The error a poll that runs out of time reports (spec 7,
    [PollTimedOut]). *)
Definition PollTimedOut : error := mkError "timed out waiting for the condition".

Definition ProvisionFailed : error := mkError "plan not found".

(** The command of the end-to-end scenario before validation:
    [--class mysqldb --plan free -p a=b]. *)
Definition bananaCmd : instance.ProvisionCmd :=
  {| instance.Namespace := "foobarnamespace"; instance.Wait := false;
     instance.Interval := 1000000000; instance.Timeout := 5000000000;
     instance.InstanceName := ""; instance.ExternalID := "";
     instance.ClassName := "mysqldb"; instance.PlanName := "free";
     instance.RawParams := ["a=b"]; instance.JsonParams := "";
     instance.Params := None; instance.RawSecrets := []; instance.Secrets := None |}.

Definition fake (provision wait : option v1beta1.ServiceInstance * option error)
  : FakeSvcatClient :=
  mkFake provision wait 0 0.

(** A stand-in for [parameters.ParseVariableJSON] that knows the one
    document of the command's tests, [{"foo":"bar"}], and rejects
    every other text the way the tests expect. *)
Definition dquote : string := String (ascii_of_nat 34) EmptyString.

Definition fooBarJSON : string :=
  "{" +:+ dquote +:+ "foo" +:+ dquote +:+ ":" +:+ dquote +:+ "bar" +:+ dquote +:+ "}".

Definition ParseVariableJSON (doc : string) : option ParameterSet * option error :=
  if bool_decide (doc = fooBarJSON)
  then (Some {["foo" := JString "bar"]}, None)
  else (None, Some (mkError ("invalid parameters (" +:+ doc +:+ ")"))).

(** The commands of the [Validate] tests: both parameter sources set,
    and a JSON string that is not JSON. *)
Definition bothSourcesCmd : instance.ProvisionCmd :=
  {| instance.Namespace := ""; instance.Wait := false;
     instance.Interval := 0; instance.Timeout := 0;
     instance.InstanceName := ""; instance.ExternalID := "";
     instance.ClassName := ""; instance.PlanName := "";
     instance.RawParams := ["a=b"]; instance.JsonParams := fooBarJSON;
     instance.Params := None; instance.RawSecrets := []; instance.Secrets := None |}.

Definition badJSONCmd : instance.ProvisionCmd :=
  {| instance.Namespace := ""; instance.Wait := false;
     instance.Interval := 0; instance.Timeout := 0;
     instance.InstanceName := ""; instance.ExternalID := "";
     instance.ClassName := ""; instance.PlanName := "";
     instance.RawParams := []; instance.JsonParams := "foo=bar";
     instance.Params := None; instance.RawSecrets := []; instance.Secrets := None |}.

(** The commands of the secrets tests: [-s foo[bar]] and
    [-s foo=bar]. *)
Definition secretCmd : instance.ProvisionCmd :=
  {| instance.Namespace := ""; instance.Wait := false;
     instance.Interval := 0; instance.Timeout := 0;
     instance.InstanceName := ""; instance.ExternalID := "";
     instance.ClassName := ""; instance.PlanName := "";
     instance.RawParams := []; instance.JsonParams := "";
     instance.Params := None; instance.RawSecrets := ["foo[bar]"];
     instance.Secrets := None |}.

Definition badSecretCmd : instance.ProvisionCmd :=
  {| instance.Namespace := ""; instance.Wait := false;
     instance.Interval := 0; instance.Timeout := 0;
     instance.InstanceName := ""; instance.ExternalID := "";
     instance.ClassName := ""; instance.PlanName := "";
     instance.RawParams := []; instance.JsonParams := "";
     instance.Params := None; instance.RawSecrets := ["foo=bar"];
     instance.Secrets := None |}.

(** A validated command run with [--wait]. *)
Definition waitingCmd : instance.ProvisionCmd :=
  {| instance.Namespace := "foobarnamespace"; instance.Wait := true;
     instance.Interval := 1000000000; instance.Timeout := 5000000000;
     instance.InstanceName := "bananainstance"; instance.ExternalID := "";
     instance.ClassName := "mysqldb"; instance.PlanName := "free";
     instance.RawParams := ["a=b"]; instance.JsonParams := "";
     instance.Params := Some {["a" := JString "b"]};
     instance.RawSecrets := []; instance.Secrets := Some ∅ |}.

(** A command at the start of a method call, with a fake client and
    an empty trace. *)
Definition start (c : instance.ProvisionCmd) (app : FakeSvcatClient)
  : instance.State FakeSvcatClient :=
  instance.mkState c app [].

(** The client whose [Provision] succeeds and whose poll becomes
    ready, the one whose poll times out, and the one whose [Provision]
    fails. *)
Definition readyClient : FakeSvcatClient :=
  fake (Some instanceToReturn, None) (Some readyInstance, None).

Definition timingOutClient : FakeSvcatClient :=
  fake (Some instanceToReturn, None) (None, Some PollTimedOut).

Definition failingClient : FakeSvcatClient :=
  fake (None, Some ProvisionFailed) (Some readyInstance, None).

(** A client whose [Provision] hands back neither an instance nor an
    error. *)
Definition nilInstanceClient : FakeSvcatClient :=
  fake (None, None) (Some readyInstance, None).

End servicecatalogfakes.

(** * Properties *)

(** Evaluate a method body: unfold the monad and the primitive
    actions. *)
Ltac run :=
  unfold instance.Run, instance.Provision, instance.Validate, instance.parseParams,
    instance.call, instance.callApp, instance.emit, instance.assign,
    instance.field, instance.deref, instance.named,
    mbind, instance.M_bind, mret, instance.M_ret in *;
  cbn [fst snd instance.self instance.App instance.trace] in *.

Example ParseVariableAssignments_ab :
  parameters.ParseVariableAssignments ["a=b"] = (Some {["a" := JString "b"]}, None).
Proof. vm_compute. reflexivity. Qed.

Example ParseVariableAssignments_none :
  parameters.ParseVariableAssignments [] = (Some ∅, None).
Proof. reflexivity. Qed.

Example ParseVariableAssignments_noequals :
  parameters.ParseVariableAssignments ["noequals"]
  = (None, Some (parameters.MalformedAssignment "noequals")).
Proof. reflexivity. Qed.

Example ParseKeyMaps_foo_bar :
  parameters.ParseKeyMaps ["foo[bar]"] = (Some {["foo" := "bar"]}, None).
Proof. vm_compute. reflexivity. Qed.

Example ParseKeyMaps_malformed :
  parameters.ParseKeyMaps ["foo=bar"]
  = (None, Some (mkError "invalid parameter (foo=bar), must be in MAP[KEY] format")).
Proof. reflexivity. Qed.

Section ValidateProperties.

Import instance.

Context {A : Type} `{!servicecatalog.SvcatClient A}.
Variable ParseVariableJSON : string -> option ParameterSet * option error.
Variable ParseVariableAssignments : list string -> option ParameterSet * option error.
Variable ParseKeyMaps : list string -> option SecretReferenceSet * option error.

Local Abbreviation validate :=
  (Validate (A:=A) ParseVariableJSON ParseVariableAssignments ParseKeyMaps).

Lemma conflict_check (c : ProvisionCmd) :
  bool_decide (JsonParams c ≠ "") && bool_decide (0 < length (RawParams c))%nat = true
  <-> conflicting c.
Proof.
  unfold conflicting. rewrite andb_true_iff, !bool_decide_eq_true.
  destruct (RawParams c); simpl; split; intros [? ?]; split; auto; try lia; congruence.
Qed.

Lemma no_conflict_check (c : ProvisionCmd) :
  ~ conflicting c ->
  bool_decide (JsonParams c ≠ "") && bool_decide (0 < length (RawParams c))%nat = false.
Proof.
  intros Hn. apply not_true_is_false. intros Ht. apply Hn, conflict_check, Ht.
Qed.

Lemma Validate_nil (st : State A) :
  validate [] st = (Return (Some MissingInstanceName), st).
Proof. reflexivity. Qed.

Lemma Validate_conflict (arg0 : string) (rest : list string) (st : State A) :
  conflicting (self st) ->
  validate (arg0 :: rest) st = (Return (Some ConflictingParamSources), named arg0 st).
Proof.
  intros Hc. apply conflict_check in Hc. run. simpl. rewrite Hc. reflexivity.
Qed.

(** Only the first positional argument is looked at. *)
Lemma Validate_first (arg0 : string) (rest : list string) (st : State A) :
  validate (arg0 :: rest) st = validate [arg0] st.
Proof. reflexivity. Qed.

Local Abbreviation parse_params :=
  (parseParams (A:=A) ParseVariableJSON ParseVariableAssignments).
Local Abbreviation param_result :=
  (paramResult ParseVariableJSON ParseVariableAssignments).

(** The parameter step: one parser call, its value stored in
    [c.Params] whatever the error. *)
Lemma parseParams_eq (st : State A) :
  parse_params st =
    (Return (Errorf1 (paramContext (self st)) <$> snd (param_result (self st))),
     mkState (set_Params (fst (param_result (self st))) (self st)) (App st)
             (trace st ++ [paramSource (self st)])).
Proof.
  unfold parseParams, paramResult, paramContext, paramSource. run.
  destruct (bool_decide (JsonParams (self st) ≠ "")).
  - destruct (ParseVariableJSON (JsonParams (self st))) as [p e]. reflexivity.
  - destruct (ParseVariableAssignments (RawParams (self st))) as [p e]. reflexivity.
Qed.

Lemma Validate_no_conflict (arg0 : string) (rest : list string) (st : State A) :
  ~ conflicting (self st) ->
  validate (arg0 :: rest) st =
    match parse_params (named arg0 st) with
    | (Return (Some e), st2) => (Return (Some e), st2)
    | (Return None, st2) => secretsStep ParseKeyMaps st2
    | (Panic reason, st2) => (Panic reason, st2)
    end.
Proof.
  intros Hn. apply no_conflict_check in Hn.
  unfold Validate. fold parse_params.
  unfold mbind at 1, M_bind at 1, assign at 1. cbn beta iota.
  unfold mbind at 1, M_bind at 1, field at 1. cbn beta iota.
  unfold mbind at 1, M_bind at 1, field at 1. cbn beta iota.
  cbn [self]. change (JsonParams (set_InstanceName arg0 (self st))) with (JsonParams (self st)).
  change (RawParams (set_InstanceName arg0 (self st))) with (RawParams (self st)).
  rewrite Hn.
  unfold mbind at 1, M_bind at 1. unfold named.
  destruct (parse_params _) as [[[e|]|r] st2]; try reflexivity.
  unfold secretsStep. run.
  destruct (ParseKeyMaps (RawSecrets (self st2))) as [s [e|]]; reflexivity.
Qed.

Local Abbreviation after_params :=
  (afterParams (A:=A) ParseVariableJSON ParseVariableAssignments).

(** [Validate] past the mutual-exclusion check, in one equation. *)
Lemma Validate_parse (arg0 : string) (rest : list string) (st : State A) :
  ~ conflicting (self st) ->
  validate (arg0 :: rest) st =
    match snd (param_result (self st)) with
    | Some e => (Return (Some (Errorf1 (paramContext (self st)) e)), after_params arg0 st)
    | None => secretsStep ParseKeyMaps (after_params arg0 st)
    end.
Proof.
  intros Hn. rewrite Validate_no_conflict by exact Hn.
  rewrite parseParams_eq. unfold named, afterParams. cbn [self App trace].
  change (paramResult ParseVariableJSON ParseVariableAssignments
            (set_InstanceName arg0 (self st)))
    with (param_result (self st)).
  change (paramContext (set_InstanceName arg0 (self st))) with (paramContext (self st)).
  change (paramSource (set_InstanceName arg0 (self st))) with (paramSource (self st)).
  destruct (snd (param_result (self st))); reflexivity.
Qed.

Lemma paramResult_raw (c : ProvisionCmd) :
  JsonParams c = "" ->
  param_result c = ParseVariableAssignments (RawParams c)
  /\ paramSource c = CallParseVariableAssignments (RawParams c).
Proof.
  intros Hj. unfold paramResult, paramSource.
  rewrite bool_decide_eq_false_2; [split; reflexivity|]. intros Hne. exact (Hne Hj).
Qed.

Lemma paramResult_json (c : ProvisionCmd) :
  JsonParams c ≠ "" ->
  param_result c = ParseVariableJSON (JsonParams c)
  /\ paramSource c = CallParseVariableJSON (JsonParams c).
Proof.
  intros Hj. unfold paramResult, paramSource.
  rewrite bool_decide_eq_true_2; [split; reflexivity|]. exact Hj.
Qed.

Lemma conflicting_or_not (c : ProvisionCmd) : conflicting c \/ ~ conflicting c.
Proof.
  destruct (bool_decide (JsonParams c ≠ "") && bool_decide (0 < length (RawParams c))%nat)
    eqn:Hb.
  - left. apply conflict_check, Hb.
  - right. intros Hc. apply conflict_check in Hc. congruence.
Qed.

(** What [Validate] adds to the trace past the mutual-exclusion
    check: the parameter parser's call, then the secrets parser's call
    unless the parameter parser failed. *)
Lemma Validate_parse_trace (arg0 : string) (rest : list string) (st : State A) :
  ~ conflicting (self st) ->
  trace (snd (validate (arg0 :: rest) st)) =
    trace st ++ paramSource (self st) ::
      match snd (param_result (self st)) with
      | Some _ => []
      | None => [CallParseKeyMaps (RawSecrets (self st))]
      end.
Proof.
  intros Hn. rewrite Validate_parse by exact Hn.
  destruct (snd (param_result (self st))); cbn; [reflexivity|].
  rewrite <- app_assoc. reflexivity.
Qed.

(** C4.  For every argument list with at least one element, when the
    JSON-params string is non-empty and at least one raw [--param]
    token is given, [Validate] returns the error
    "--params-json cannot be used with --param"; nothing is added to
    the trace, so neither parameter parser (nor the secrets parser) is
    called, and only [InstanceName] has been assigned. *)
Theorem Validate_conflicting_param_sources
    (arg0 : string) (rest : list string) (st : State A) :
  JsonParams (self st) ≠ "" ->
  RawParams (self st) ≠ [] ->
  fst (validate (arg0 :: rest) st)
    = Return (Some (mkError "--params-json cannot be used with --param"))
  /\ trace (snd (validate (arg0 :: rest) st)) = trace st
  /\ snd (validate (arg0 :: rest) st) = named arg0 st.
Proof.
  intros Hj Hr. rewrite Validate_conflict by (split; assumption).
  repeat split.
Qed.

(** C5.  [Validate] fails with "an instance name is required" exactly
    when the positional-argument list is empty; on a non-empty list it
    sets [InstanceName] to the first argument and behaves as if the
    other arguments were not there. *)
Theorem Validate_instance_name_required (args : list string) (st : State A) :
  (fst (validate args st) = Return (Some (mkError "an instance name is required"))
   <-> args = [])
  /\ (forall arg0 rest,
        InstanceName (self (snd (validate (arg0 :: rest) st))) = arg0
        /\ validate (arg0 :: rest) st = validate [arg0] st).
Proof.
  split.
  - split.
    + destruct args as [|arg0 rest]; [reflexivity|]. intros Hr. exfalso.
      destruct (conflicting_or_not (self st)) as [Hc|Hn].
      * rewrite Validate_conflict in Hr by exact Hc. discriminate Hr.
      * rewrite Validate_parse in Hr by exact Hn.
        unfold secretsStep, paramContext in Hr.
        destruct (snd (param_result (self st))) as [e|].
        -- destruct (bool_decide (JsonParams (self st) ≠ "")); discriminate Hr.
        -- cbn in Hr. destruct (snd (ParseKeyMaps _)); discriminate Hr.
    + intros ->. reflexivity.
  - intros arg0 rest. split; [|reflexivity].
    destruct (conflicting_or_not (self st)) as [Hc|Hn].
    + rewrite Validate_conflict by exact Hc. reflexivity.
    + rewrite Validate_parse by exact Hn.
      destruct (snd (param_result (self st))); reflexivity.
Qed.

(** Find which recorded call a membership hypothesis speaks of. *)
Ltac pick_call :=
  repeat match goal with
  | Hin : _ ∈ _ :: _ |- _ => apply elem_of_cons in Hin; destruct Hin as [Hin|Hin]
  | Hin : _ ∈ [] |- _ => inversion Hin
  | Heq : CallParseVariableJSON _ = _ |- _ => simplify_eq
  | Heq : CallParseVariableAssignments _ = _ |- _ => simplify_eq
  | Heq : CallParseKeyMaps _ = _ |- _ => simplify_eq
  end.

(** C7.  Whenever a parser that [Validate] called came back with an
    error, [Validate] returns that error wrapped in the parser's
    context: "invalid --params-json value (..)" for the JSON parser,
    "invalid --param value (..)" for the raw-assignments parser,
    "invalid --secret value (..)" for the secret-reference parser; and
    when [Validate] returns [nil], every parser it called
    succeeded. *)
Theorem Validate_wraps_parser_errors (args : list string) (st : State A) :
  exists calls,
    trace (snd (validate args st)) = trace st ++ calls
    /\ (forall doc e,
          CallParseVariableJSON doc ∈ calls ->
          snd (ParseVariableJSON doc) = Some e ->
          fst (validate args st)
            = Return (Some (mkError ("invalid --params-json value (" +:+ Error e +:+ ")"))))
    /\ (forall params e,
          CallParseVariableAssignments params ∈ calls ->
          snd (ParseVariableAssignments params) = Some e ->
          fst (validate args st)
            = Return (Some (mkError ("invalid --param value (" +:+ Error e +:+ ")"))))
    /\ (forall params e,
          CallParseKeyMaps params ∈ calls ->
          snd (ParseKeyMaps params) = Some e ->
          fst (validate args st)
            = Return (Some (mkError ("invalid --secret value (" +:+ Error e +:+ ")"))))
    /\ (fst (validate args st) = Return None ->
        Forall (fun call =>
                  parserError ParseVariableJSON ParseVariableAssignments ParseKeyMaps call
                  = None) calls).
Proof.
  destruct args as [|arg0 rest].
  { exists []. rewrite Validate_nil, app_nil_r. cbn.
    repeat split; try (intros ? ? Hin; inversion Hin); try constructor. }
  destruct (conflicting_or_not (self st)) as [Hc|Hn].
  { exists []. rewrite Validate_conflict by exact Hc. unfold named. cbn.
    rewrite app_nil_r.
    repeat split; try (intros ? ? Hin; inversion Hin); try constructor. }
  eexists. split; [apply Validate_parse_trace, Hn|].
  rewrite Validate_parse by exact Hn.
  unfold paramResult, paramSource, paramContext, secretsStep, afterParams.
  cbn [self App trace RawSecrets set_Params set_InstanceName].
  destruct (bool_decide (JsonParams (self st) ≠ ""));
    [ destruct (ParseVariableJSON (JsonParams (self st))) as [p [e|]] eqn:Hp
    | destruct (ParseVariableAssignments (RawParams (self st))) as [p [e|]] eqn:Hp ];
    cbn [fst snd];
    try (destruct (ParseKeyMaps (RawSecrets (self st))) as [s [e|]] eqn:Hs;
         cbn [fst snd fmap option_fmap option_map]).
  all: repeat split; intros; pick_call.
  all: first
    [ discriminate
    | rewrite ?Hp, ?Hs in *; cbn in *; simplify_eq; reflexivity
    | repeat constructor; cbn; rewrite ?Hp, ?Hs; reflexivity ].
Qed.

(** C10.  On a non-empty argument list [Validate] assigns
    [InstanceName] first, so when it then returns an error (conflicting
    parameter sources or a parser failure) the receiver still carries
    the new name: a failed validation of a command whose name differed
    from the first argument leaves the command changed. *)
Theorem Validate_failure_keeps_instance_name
    (arg0 : string) (rest : list string) (st : State A) (e : error) :
  fst (validate (arg0 :: rest) st) = Return (Some e) ->
  InstanceName (self (snd (validate (arg0 :: rest) st))) = arg0
  /\ (InstanceName (self st) ≠ arg0 ->
      self (snd (validate (arg0 :: rest) st)) ≠ self st).
Proof.
  intros _.
  assert (Hname : InstanceName (self (snd (validate (arg0 :: rest) st))) = arg0).
  { destruct (conflicting_or_not (self st)) as [Hc|Hn].
    - rewrite Validate_conflict by exact Hc. reflexivity.
    - rewrite Validate_parse by exact Hn.
      destruct (snd (param_result (self st))); reflexivity. }
  split; [exact Hname|].
  intros Hne Heq. rewrite Heq in Hname. contradiction.
Qed.

End ValidateProperties.

Section ParameterSource.

Import instance.

Context {A : Type} `{!servicecatalog.SvcatClient A}.
Variable ParseVariableJSON : string -> option ParameterSet * option error.
Variable ParseVariableAssignments : list string -> option ParameterSet * option error.
Variable ParseKeyMaps : list string -> option SecretReferenceSet * option error.

Local Abbreviation validate :=
  (Validate (A:=A) ParseVariableJSON ParseVariableAssignments ParseKeyMaps).


(** With no JSON string, [Validate] leaves in [Params] what the
    raw-assignments parser returned for the [--param] tokens. *)
Lemma Validate_stores_assignments (arg0 : string) (rest : list string) (st : State A) :
  JsonParams (self st) = "" ->
  Params (self (snd (validate (arg0 :: rest) st)))
    = fst (ParseVariableAssignments (RawParams (self st))).
Proof.
  intros Hj.
  assert (Hn : ~ conflicting (self st)) by (intros [Hne _]; exact (Hne Hj)).
  rewrite Validate_parse by exact Hn. unfold afterParams, secretsStep.
  destruct (paramResult_raw ParseVariableJSON ParseVariableAssignments (self st) Hj)
    as [-> _].
  destruct (snd (ParseVariableAssignments (RawParams (self st)))); reflexivity.
Qed.

End ParameterSource.

Section ProvisionProperties.

Import instance.

Context {A : Type} `{!servicecatalog.SvcatClient A}.

(** The call [c.App.Provision(c.InstanceName, c.ClassName, c.PlanName, opts)]
    as [Provision] makes it, and its record in the trace. *)
Local Abbreviation provisionCall st :=
  (servicecatalog.Provision (App st) (InstanceName (self st)) (ClassName (self st))
     (PlanName (self st)) (optsOf (self st))).

Local Abbreviation provisionEvent st :=
  (CallProvision (InstanceName (self st)) (ClassName (self st)) (PlanName (self st))
     (servicecatalog.mkProvisionOptions (ExternalID (self st)) (Namespace (self st))
        (Params (self st)) (Secrets (self st)))).

Lemma Provision_failed (st : State A) inst e app1 :
  provisionCall st = ((inst, Some e), app1) ->
  Provision st = (Return (Some e), mkState (self st) app1 (trace st ++ [provisionEvent st])).
Proof.
  intros Hp. run. unfold optsOf in Hp. rewrite Hp. reflexivity.
Qed.

Lemma Provision_no_wait (st : State A) inst app1 :
  Wait (self st) = false ->
  provisionCall st = ((inst, None), app1) ->
  Provision st =
    (Return None,
     mkState (self st) app1 (trace st ++ [provisionEvent st; WriteInstanceDetails inst])).
Proof.
  intros Hw Hp. run. unfold optsOf in Hp. rewrite Hp. cbn. rewrite Hw. cbn.
  rewrite <- app_assoc. reflexivity.
Qed.

Lemma Provision_nil_instance (st : State A) app1 :
  Wait (self st) = true ->
  provisionCall st = ((None, None), app1) ->
  Provision st =
    (Panic "invalid memory address or nil pointer dereference",
     mkState (self st) app1
       (trace st ++ [provisionEvent st;
                     Fprintln "Waiting for the instance to be provisioned..."])).
Proof.
  intros Hw Hp. run. unfold optsOf in Hp. rewrite Hp. cbn. rewrite Hw. cbn.
  rewrite <- app_assoc. reflexivity.
Qed.

Lemma Provision_waited (st : State A) inst app1 final werr app2 :
  Wait (self st) = true ->
  provisionCall st = ((Some inst, None), app1) ->
  servicecatalog.WaitForInstance app1 (v1beta1.Namespace inst) (v1beta1.Name inst)
    (Interval (self st)) (Timeout (self st)) = ((final, werr), app2) ->
  Provision st =
    (Return werr,
     mkState (self st) app2
       (trace st ++
        [provisionEvent st;
         Fprintln "Waiting for the instance to be provisioned...";
         CallWaitForInstance (v1beta1.Namespace inst) (v1beta1.Name inst)
           (Interval (self st)) (Timeout (self st));
         WriteInstanceDetails (match werr with None => final | Some _ => Some inst end)])).
Proof.
  intros Hw Hp Hf. run. unfold optsOf in Hp. rewrite Hp. cbn. rewrite Hw. cbn.
  rewrite Hf. cbn. rewrite <- !app_assoc. reflexivity.
Qed.

(** Whatever the client answers, the first thing [Provision] does is
    the one [Provision] call; nothing after it is a [Provision]
    call. *)
Lemma Provision_trace (st : State A) :
  exists later,
    trace (snd (Provision st)) = trace st ++ provisionEvent st :: later
    /\ Forall (fun e => isProvisionCall e = false) later.
Proof.
  destruct (provisionCall st) as [[inst [e|]] app1] eqn:Hp.
  - rewrite (Provision_failed _ _ _ _ Hp). exists []. split; [reflexivity|constructor].
  - destruct (Wait (self st)) eqn:Hw.
    + destruct inst as [inst|].
      * destruct (servicecatalog.WaitForInstance app1 (v1beta1.Namespace inst)
                    (v1beta1.Name inst) (Interval (self st)) (Timeout (self st)))
          as [[final werr] app2] eqn:Hf.
        rewrite (Provision_waited _ _ _ _ _ _ Hw Hp Hf).
        eexists. split; [reflexivity|]. repeat constructor.
      * rewrite (Provision_nil_instance _ _ Hw Hp).
        eexists. split; [reflexivity|]. repeat constructor.
    + rewrite (Provision_no_wait _ _ _ Hw Hp).
      eexists. split; [reflexivity|]. repeat constructor.
Qed.

(** What becomes of the client: [Provision] applies the client's
    [Provision] to the client it was given, with the command's three
    names and the options built from it, and the client it leaves is
    the one that call returned, or the one the poll made from it. *)
Lemma Provision_client (st : State A) :
  App (snd (Provision st)) = snd (provisionCall st)
  \/ (exists inst,
        fst (provisionCall st) = (Some inst, None) /\ Wait (self st) = true
        /\ App (snd (Provision st))
           = snd (servicecatalog.WaitForInstance (snd (provisionCall st))
                    (v1beta1.Namespace inst) (v1beta1.Name inst)
                    (Interval (self st)) (Timeout (self st)))).
Proof.
  destruct (provisionCall st) as [[inst [e|]] app1] eqn:Hp.
  - left. rewrite (Provision_failed _ _ _ _ Hp). reflexivity.
  - destruct (Wait (self st)) eqn:Hw.
    + destruct inst as [inst|].
      * right. exists inst. split; [reflexivity|]. split; [reflexivity|].
        destruct (servicecatalog.WaitForInstance app1 (v1beta1.Namespace inst)
                    (v1beta1.Name inst) (Interval (self st)) (Timeout (self st)))
          as [[final werr] app2] eqn:Hf.
        rewrite (Provision_waited _ _ _ _ _ _ Hw Hp Hf). cbn [snd App].
        rewrite Hf. reflexivity.
      * left. rewrite (Provision_nil_instance _ _ Hw Hp). reflexivity.
    + left. rewrite (Provision_no_wait _ _ _ Hw Hp). reflexivity.
Qed.

(** C1.  In wait mode, when the client's [Provision] has returned an
    instance and no error, the command prints the waiting line, calls
    [WaitForInstance] for that instance with the command's interval
    and timeout, then writes the instance details whatever
    [WaitForInstance] returned (its final snapshot when it returned no
    error, the snapshot from [Provision] otherwise), and returns the
    error of [WaitForInstance], [nil] included. *)
Theorem Provision_wait_reports_snapshot (st : State A) inst app1 final werr app2 :
  Wait (self st) = true ->
  provisionCall st = ((Some inst, None), app1) ->
  servicecatalog.WaitForInstance app1 (v1beta1.Namespace inst) (v1beta1.Name inst)
    (Interval (self st)) (Timeout (self st)) = ((final, werr), app2) ->
  fst (Provision st) = Return werr
  /\ trace (snd (Provision st)) =
       trace st ++
       [provisionEvent st;
        Fprintln "Waiting for the instance to be provisioned...";
        CallWaitForInstance (v1beta1.Namespace inst) (v1beta1.Name inst)
          (Interval (self st)) (Timeout (self st));
        WriteInstanceDetails (match werr with None => final | Some _ => Some inst end)].
Proof.
  intros Hw Hp Hf. rewrite (Provision_waited _ _ _ _ _ _ Hw Hp Hf). split; reflexivity.
Qed.

(** C2, as the code has it.  When provisioning has succeeded and
    [WaitForInstance] then returns an error (a poll that timed out
    does), the command has still written the snapshot from
    [Provision], and it returns that error: its result is not
    [nil]. *)
Theorem Provision_wait_error_is_returned (st : State A) inst app1 final e app2 :
  Wait (self st) = true ->
  provisionCall st = ((Some inst, None), app1) ->
  servicecatalog.WaitForInstance app1 (v1beta1.Namespace inst) (v1beta1.Name inst)
    (Interval (self st)) (Timeout (self st)) = ((final, Some e), app2) ->
  fst (Provision st) = Return (Some e)
  /\ fst (Provision st) ≠ Return None
  /\ last (trace (snd (Provision st))) = Some (WriteInstanceDetails (Some inst)).
Proof.
  intros Hw Hp Hf. rewrite (Provision_waited _ _ _ _ _ _ Hw Hp Hf). cbn.
  repeat split; [discriminate|]. rewrite last_app. reflexivity.
Qed.

(** C3.  When the client's [Provision] returns an error, the command
    returns that very error at once: the [Provision] call is the only
    thing added to the trace, so [WaitForInstance] is not called and no
    instance details are written, in wait mode or not. *)
Theorem Provision_error_aborts (st : State A) inst e app1 :
  provisionCall st = ((inst, Some e), app1) ->
  fst (Provision st) = Return (Some e)
  /\ trace (snd (Provision st)) = trace st ++ [provisionEvent st]
  /\ Forall (fun ev => isWaitForInstanceCall ev = false /\ isWriteInstanceDetails ev = false)
       (drop (length (trace st)) (trace (snd (Provision st))))
  /\ App (snd (Provision st)) = app1.
Proof.
  intros Hp. rewrite (Provision_failed _ _ _ _ Hp). cbn [fst snd trace App].
  rewrite drop_app_length. repeat constructor.
Qed.

End ProvisionProperties.

Section Assignments.

Import parameters.

Lemma Cut_assignment (name value : string) :
  strings.containsChar "=" name = false ->
  strings.Cut "=" (name +:+ "=" +:+ value) = Some (name, value).
Proof.
  induction name as [|a name IH]; intros Hno; [reflexivity|].
  cbn in Hno. destruct (Ascii.eqb a "=") eqn:Ha; [discriminate|].
  change (String a name +:+ "=" +:+ value) with (String a (name +:+ "=" +:+ value)).
  cbn [strings.Cut]. rewrite Ha, (IH Hno). reflexivity.
Qed.

(** On well-formed tokens the loop never fails: it is a left fold of
    map updates over the assignments, in input order. *)
Lemma assignLoop_well_formed (assignments : list (string * string)) (variables : ParameterSet) :
  Forall (fun nv => wellFormedName nv.1) assignments ->
  assignLoop variables (assignment <$> assignments)
    = inl (foldl assign1 variables assignments).
Proof.
  intros Hwf. revert variables.
  induction Hwf as [|[name value] rest [Hne Hno] _ IH]; intros variables; [reflexivity|].
  cbn [fmap list_fmap assignLoop foldl]. unfold assignment at 1. cbn [fst snd].
  rewrite (Cut_assignment _ _ Hno).
  rewrite bool_decide_eq_false_2 by exact Hne.
  apply IH.
Qed.

Lemma foldl_assign1_other (assignments : list (string * string)) (variables : ParameterSet)
    (name : string) :
  name ∉ assignments.*1 ->
  foldl assign1 variables assignments !! name = variables !! name.
Proof.
  revert variables. induction assignments as [|[n v] rest IH]; intros variables Hnot;
    [reflexivity|].
  cbn in Hnot |- *. apply not_elem_of_cons in Hnot as [Hne Hnot].
  rewrite IH by exact Hnot. unfold assign1. cbn. apply lookup_insert_ne. congruence.
Qed.

Lemma foldl_assign1_dom (assignments : list (string * string)) (variables : ParameterSet) :
  dom (foldl assign1 variables assignments)
    = dom variables ∪ list_to_set (assignments.*1).
Proof.
  revert variables. induction assignments as [|[n v] rest IH]; intros variables; cbn.
  - rewrite (right_id_L ∅ (∪)). reflexivity.
  - rewrite IH. unfold assign1. cbn. rewrite dom_insert_L.
    rewrite (comm_L (∪) {[n]} (dom variables)), <- (assoc_L (∪)). reflexivity.
Qed.

(** C9.  For tokens that are all well-formed [NAME=VALUE] assignments,
    [ParseVariableAssignments] returns a map and no error; the map's
    keys are exactly the distinct names, one entry each, and a name
    maps to the value of its last occurrence in input order. *)
Theorem ParseVariableAssignments_last_wins (assignments : list (string * string)) :
  Forall (fun nv => wellFormedName nv.1) assignments ->
  exists variables : ParameterSet,
    ParseVariableAssignments (assignment <$> assignments) = (Some variables, None)
    /\ dom variables = list_to_set (assignments.*1)
    /\ size variables = length (remove_dups (assignments.*1))
    /\ (forall before name value after,
          assignments = before ++ (name, value) :: after ->
          name ∉ after.*1 ->
          variables !! name = Some (JString value)).
Proof.
  intros Hwf. exists (foldl assign1 ∅ assignments).
  assert (Hdom : dom (foldl assign1 (∅ : ParameterSet) assignments)
                 = list_to_set (assignments.*1)).
  { rewrite foldl_assign1_dom, dom_empty_L, (left_id_L ∅ (∪)). reflexivity. }
  split; [|split; [exact Hdom|split]].
  - unfold ParseVariableAssignments. rewrite (assignLoop_well_formed _ _ Hwf). reflexivity.
  - rewrite <- size_dom, Hdom.
    rewrite <- (size_list_to_set (C:=gset string) (remove_dups (assignments.*1)))
      by apply NoDup_remove_dups.
    f_equal. apply set_eq. intros x.
    rewrite !elem_of_list_to_set, elem_of_remove_dups. reflexivity.
  - intros before name value after -> Hlast.
    rewrite foldl_app. cbn [foldl].
    rewrite foldl_assign1_other by exact Hlast.
    unfold assign1 at 1. cbn [fst snd]. apply lookup_insert_eq.
Qed.

End Assignments.

Section Scenarios.

Import instance servicecatalogfakes.

Lemma filter_none (f : Event -> bool) (l : list Event) :
  Forall (fun e => f e = false) l ->
  filter (fun e => f e = true) l = [].
Proof.
  induction 1 as [|e l He _ IH]; [reflexivity|].
  rewrite filter_cons_False by congruence. exact IH.
Qed.

(** The counting fake sees one more [Provision] call after every run
    of the command's [Provision]. *)
Lemma Provision_fake_count (st : State FakeSvcatClient) :
  provisionCallCount (App (snd (Provision st))) = S (provisionCallCount (App st)).
Proof.
  destruct (Provision_client st) as [->|(inst & _ & _ & ->)]; reflexivity.
Qed.

(** C8.  Each run of [Provision] calls the client's [Provision] once,
    first, with [InstanceName], [ClassName] and [PlanName] as the three
    positional arguments and options holding the command's
    [ExternalID], [Namespace], [Params] and [Secrets]: the call is the
    first new event and the only [Provision] event, the client the
    command leaves is the one that very call returned (or the one the
    poll made from it), and the counting fake of the tests counts
    exactly one more [Provision] call.  In the scenario
    [provision bananainstance --class mysqldb --plan free -p a=b],
    validation succeeds, the one [Provision] call carries params
    [{a: b}] and empty secrets, and the fake has counted one call. *)
Theorem Provision_called_once :
  (forall (A : Type) (client : servicecatalog.SvcatClient A) (st : State A),
      (exists later,
        trace (snd (Provision st)) =
          trace st ++
          CallProvision (InstanceName (self st)) (ClassName (self st)) (PlanName (self st))
            (servicecatalog.mkProvisionOptions (ExternalID (self st)) (Namespace (self st))
               (Params (self st)) (Secrets (self st))) :: later
        /\ Forall (fun e => isProvisionCall e = false) later)
      /\ (App (snd (Provision st))
            = snd (servicecatalog.Provision (App st) (InstanceName (self st))
                     (ClassName (self st)) (PlanName (self st))
                     (servicecatalog.mkProvisionOptions (ExternalID (self st))
                        (Namespace (self st)) (Params (self st)) (Secrets (self st))))
          \/ exists inst,
              Wait (self st) = true
              /\ App (snd (Provision st))
                 = snd (servicecatalog.WaitForInstance
                          (snd (servicecatalog.Provision (App st) (InstanceName (self st))
                                  (ClassName (self st)) (PlanName (self st))
                                  (servicecatalog.mkProvisionOptions (ExternalID (self st))
                                     (Namespace (self st)) (Params (self st))
                                     (Secrets (self st)))))
                          (v1beta1.Namespace inst) (v1beta1.Name inst)
                          (Interval (self st)) (Timeout (self st)))))
  /\ (forall st : State FakeSvcatClient,
        provisionCallCount (App (snd (Provision st))) = S (provisionCallCount (App st)))
  /\ (forall (A : Type) (client : servicecatalog.SvcatClient A)
        (ParseVariableJSON : string -> option ParameterSet * option error) (app : A),
      exists st1,
        Validate ParseVariableJSON parameters.ParseVariableAssignments
          parameters.ParseKeyMaps ["bananainstance"] (mkState bananaCmd app [])
          = (Return None, st1)
        /\ filter (fun e => isProvisionCall e = true) (trace (snd (Run st1)))
           = [CallProvision "bananainstance" "mysqldb" "free"
                (servicecatalog.mkProvisionOptions "" "foobarnamespace"
                   (Some {["a" := JString "b"]}) (Some ∅))])
  /\ (forall (ParseVariableJSON : string -> option ParameterSet * option error)
        (app : FakeSvcatClient),
      provisionCallCount
        (App (snd (Run (snd (Validate ParseVariableJSON parameters.ParseVariableAssignments
                               parameters.ParseKeyMaps ["bananainstance"]
                               (mkState bananaCmd app []))))))
      = S (provisionCallCount app)).
Proof.
  split; [|split; [|split]].
  - intros A client st. split; [apply Provision_trace|].
    destruct (Provision_client st) as [Happ|(inst & _ & Hw & Happ)].
    + left. exact Happ.
    + right. exists inst. split; [exact Hw|exact Happ].
  - exact Provision_fake_count.
  - intros A client ParseVariableJSON app.
    exists (mkState
              (set_Secrets (Some ∅)
                 (set_Params (Some {["a" := JString "b"]})
                    (set_InstanceName "bananainstance" bananaCmd)))
              app [CallParseVariableAssignments ["a=b"]; CallParseKeyMaps []]).
    split; [vm_compute; reflexivity|].
    unfold Run.
    match goal with |- context [Provision ?s] =>
      destruct (Provision_trace s) as (later & -> & Hlater) end.
    cbn [trace self App]. rewrite filter_app.
    rewrite (filter_cons_True _ (CallProvision _ _ _ _) later) by reflexivity.
    rewrite (filter_none _ _ Hlater). reflexivity.
  - intros ParseVariableJSON app. unfold Run. rewrite Provision_fake_count.
    f_equal.
Qed.

(** The [Validate] cases of the command's tests, with the stand-in
    JSON parser. *)
Local Abbreviation validateTest :=
  (Validate (A:=FakeSvcatClient) servicecatalogfakes.ParseVariableJSON
     parameters.ParseVariableAssignments parameters.ParseKeyMaps).

Example Validate_succeeds_with_a_name :
  fst (validateTest ["bananainstance"] (start zero readyClient)) = Return None.
Proof. vm_compute. reflexivity. Qed.

Example Validate_errors_without_a_name :
  fst (validateTest [] (start zero readyClient))
  = Return (Some (mkError "an instance name is required")).
Proof. reflexivity. Qed.

Example Validate_errors_on_both_sources :
  fst (validateTest ["bananainstance"] (start bothSourcesCmd readyClient))
  = Return (Some (mkError "--params-json cannot be used with --param")).
Proof. vm_compute. reflexivity. Qed.

Example Validate_parses_raw_params :
  Params (self (snd (validateTest ["bananainstance"] (start bananaCmd readyClient))))
  = Some {["a" := JString "b"]}.
Proof. vm_compute. reflexivity. Qed.

Example Validate_errors_on_bad_json :
  fst (validateTest ["bananainstance"] (start badJSONCmd readyClient))
  = Return (Some (mkError "invalid --params-json value (invalid parameters (foo=bar))")).
Proof. vm_compute. reflexivity. Qed.

Example Validate_parses_secrets :
  validateTest ["bananainstance"] (start secretCmd readyClient)
  = (Return None,
     mkState (set_Secrets (Some {["foo" := "bar"]})
                (set_Params (Some ∅) (set_InstanceName "bananainstance" secretCmd)))
       readyClient [CallParseVariableAssignments []; CallParseKeyMaps ["foo[bar]"]]).
Proof. vm_compute. reflexivity. Qed.

Example Validate_errors_on_bad_secret :
  fst (validateTest ["bananainstance"] (start badSecretCmd readyClient))
  = Return (Some (mkError
      "invalid --secret value (invalid parameter (foo=bar), must be in MAP[KEY] format)")).
Proof. vm_compute. reflexivity. Qed.

(** The run of the command's test: the fake's [Provision] returns the
    instance, the command is not waiting, and [Run] returns [nil]
    after one [Provision] call. *)
Example Run_calls_Provision :
  fst (Run (start zero readyClient)) = Return None
  /\ provisionCallCount (App (snd (Run (start zero readyClient)))) = 1%nat
  /\ trace (snd (Run (start zero readyClient)))
     = [CallProvision "" "" "" (optsOf zero); WriteInstanceDetails (Some instanceToReturn)].
Proof. repeat split. Qed.

(** The claim C2 as the spec words it fails: with a client whose
    [Provision] succeeds and whose poll times out, the command in wait
    mode returns the poll's error, not [nil]. *)
Lemma Provision_poll_timeout_not_nil :
  Wait (self (start waitingCmd timingOutClient)) = true
  /\ fst (servicecatalog.Provision timingOutClient "bananainstance" "mysqldb" "free"
            (optsOf waitingCmd))
     = (Some instanceToReturn, None)
  /\ fst (servicecatalog.WaitForInstance
            (snd (servicecatalog.Provision timingOutClient "bananainstance" "mysqldb"
                    "free" (optsOf waitingCmd)))
            "foobarnamespace" "mysql1234" 1000000000 5000000000)
     = (None, Some PollTimedOut)
  /\ fst (Provision (start waitingCmd timingOutClient)) = Return (Some PollTimedOut)
  /\ fst (Provision (start waitingCmd timingOutClient)) ≠ Return None.
Proof.
  repeat split; try reflexivity.
  intros Hnil. vm_compute in Hnil. discriminate Hnil.
Qed.

Lemma Provision_wait_reports_snapshot_witness :
  fst (Provision (start waitingCmd readyClient)) = Return None
  /\ trace (snd (Provision (start waitingCmd readyClient))) =
       [CallProvision "bananainstance" "mysqldb" "free" (optsOf waitingCmd);
        Fprintln "Waiting for the instance to be provisioned...";
        CallWaitForInstance "foobarnamespace" "mysql1234" 1000000000 5000000000;
        WriteInstanceDetails (Some readyInstance)].
Proof.
  apply (Provision_wait_reports_snapshot (start waitingCmd readyClient)
           instanceToReturn
           (mkFake (Some instanceToReturn, None) (Some readyInstance, None) 1 0)
           (Some readyInstance) None
           (mkFake (Some instanceToReturn, None) (Some readyInstance, None) 1 1));
    reflexivity.
Defined.

Lemma Provision_wait_error_is_returned_witness :
  fst (Provision (start waitingCmd timingOutClient)) = Return (Some PollTimedOut)
  /\ fst (Provision (start waitingCmd timingOutClient)) ≠ Return None
  /\ last (trace (snd (Provision (start waitingCmd timingOutClient))))
     = Some (WriteInstanceDetails (Some instanceToReturn)).
Proof.
  apply (Provision_wait_error_is_returned (start waitingCmd timingOutClient)
           instanceToReturn
           (mkFake (Some instanceToReturn, None) (None, Some PollTimedOut) 1 0)
           None PollTimedOut
           (mkFake (Some instanceToReturn, None) (None, Some PollTimedOut) 1 1));
    reflexivity.
Defined.

Lemma Provision_error_aborts_witness :
  Wait (self (start waitingCmd failingClient)) = true
  /\ fst (Provision (start waitingCmd failingClient)) = Return (Some ProvisionFailed)
  /\ trace (snd (Provision (start waitingCmd failingClient)))
     = [CallProvision "bananainstance" "mysqldb" "free" (optsOf waitingCmd)]
  /\ waitForInstanceCallCount (App (snd (Provision (start waitingCmd failingClient)))) = 0%nat.
Proof.
  split; [reflexivity|].
  destruct (Provision_error_aborts (start waitingCmd failingClient) None ProvisionFailed
              (mkFake (None, Some ProvisionFailed) (Some readyInstance, None) 1 0))
    as (Hres & Htrace & _ & Happ); [reflexivity|].
  split; [exact Hres|]. split; [exact Htrace|]. rewrite Happ. reflexivity.
Defined.

Lemma Validate_conflicting_param_sources_witness :
  JsonParams bothSourcesCmd ≠ "" /\ RawParams bothSourcesCmd ≠ []
  /\ fst (validateTest ["bananainstance"] (start bothSourcesCmd readyClient))
     = Return (Some (mkError "--params-json cannot be used with --param"))
  /\ trace (snd (validateTest ["bananainstance"] (start bothSourcesCmd readyClient))) = [].
Proof.
  assert (Hj : JsonParams bothSourcesCmd ≠ "") by (vm_compute; discriminate).
  assert (Hr : RawParams bothSourcesCmd ≠ []) by discriminate.
  split; [exact Hj|]. split; [exact Hr|].
  destruct (Validate_conflicting_param_sources servicecatalogfakes.ParseVariableJSON
              parameters.ParseVariableAssignments parameters.ParseKeyMaps
              "bananainstance" [] (start bothSourcesCmd readyClient) Hj Hr)
    as (Hres & Htrace & _).
  split; [exact Hres|exact Htrace].
Defined.


Lemma Validate_failure_keeps_instance_name_witness :
  fst (validateTest ["bananainstance"] (start badJSONCmd readyClient))
    = Return (Some (mkError "invalid --params-json value (invalid parameters (foo=bar))"))
  /\ InstanceName (self (snd (validateTest ["bananainstance"] (start badJSONCmd readyClient))))
     = "bananainstance"
  /\ self (snd (validateTest ["bananainstance"] (start badJSONCmd readyClient)))
     ≠ self (start badJSONCmd readyClient).
Proof.
  assert (Hfail : fst (validateTest ["bananainstance"] (start badJSONCmd readyClient))
            = Return (Some (mkError
                "invalid --params-json value (invalid parameters (foo=bar))")))
    by (vm_compute; reflexivity).
  split; [exact Hfail|].
  destruct (Validate_failure_keeps_instance_name servicecatalogfakes.ParseVariableJSON
              parameters.ParseVariableAssignments parameters.ParseKeyMaps
              "bananainstance" [] (start badJSONCmd readyClient) _ Hfail)
    as (Hname & Hchanged).
  split; [exact Hname|]. apply Hchanged. discriminate.
Defined.

Lemma ParseVariableAssignments_last_wins_witness :
  Forall (fun nv => parameters.wellFormedName nv.1) [("a", "b"); ("c", "d"); ("a", "z")]
  /\ exists variables : ParameterSet,
      parameters.ParseVariableAssignments ["a=b"; "c=d"; "a=z"] = (Some variables, None)
      /\ variables !! "a" = Some (JString "z")
      /\ variables !! "c" = Some (JString "d")
      /\ size variables = 2%nat.
Proof.
  assert (Hwf : Forall (fun nv => parameters.wellFormedName nv.1)
                  [("a", "b"); ("c", "d"); ("a", "z")]).
  { repeat constructor; discriminate. }
  split; [exact Hwf|].
  destruct (ParseVariableAssignments_last_wins _ Hwf)
    as (variables & Hparse & _ & Hsize & Hlast).
  exists variables. split; [exact Hparse|]. split; [|split].
  - apply (Hlast [("a", "b"); ("c", "d")] "a" "z" []); [reflexivity|]. apply not_elem_of_nil.
  - apply (Hlast [("a", "b")] "c" "d" [("a", "z")]); [reflexivity|].
    intros Hin. apply list_elem_of_singleton in Hin. discriminate Hin.
  - rewrite Hsize. vm_compute. reflexivity.
Defined.

End Scenarios.

(** * Further properties of [Validate] *)

Section ValidateFurther.

Import instance.

Context {A : Type} `{!servicecatalog.SvcatClient A}.
Variable ParseVariableJSON : string -> option ParameterSet * option error.
Variable ParseVariableAssignments : list string -> option ParameterSet * option error.
Variable ParseKeyMaps : list string -> option SecretReferenceSet * option error.

Local Abbreviation validate :=
  (Validate (A:=A) ParseVariableJSON ParseVariableAssignments ParseKeyMaps).
Local Abbreviation param_result :=
  (paramResult ParseVariableJSON ParseVariableAssignments).
Local Abbreviation after_params :=
  (afterParams (A:=A) ParseVariableJSON ParseVariableAssignments).

(** The four ways through [Validate]: no argument; both parameter
    sources; the parameter parser fails; the secrets step is
    reached. *)
Lemma Validate_cases (args : list string) (st : State A) :
  (args = [] /\ validate args st = (Return (Some MissingInstanceName), st))
  \/ (exists arg0 rest,
        args = arg0 :: rest /\ conflicting (self st)
        /\ validate args st = (Return (Some ConflictingParamSources), named arg0 st))
  \/ (exists arg0 rest e,
        args = arg0 :: rest /\ ~ conflicting (self st)
        /\ snd (param_result (self st)) = Some e
        /\ validate args st
           = (Return (Some (Errorf1 (paramContext (self st)) e)), after_params arg0 st))
  \/ (exists arg0 rest,
        args = arg0 :: rest /\ ~ conflicting (self st)
        /\ snd (param_result (self st)) = None
        /\ validate args st = secretsStep ParseKeyMaps (after_params arg0 st)).
Proof.
  destruct args as [|arg0 rest]; [left; split; reflexivity|]. right.
  destruct (conflicting_or_not (self st)) as [Hc|Hn].
  - left. exists arg0, rest.
    split; [reflexivity|]. split; [exact Hc|]. apply Validate_conflict, Hc.
  - right. rewrite Validate_parse by exact Hn.
    destruct (snd (param_result (self st))) as [e|] eqn:He.
    + left. exists arg0, rest, e.
      split; [reflexivity|]. split; [exact Hn|]. split; reflexivity.
    + right. exists arg0, rest.
      split; [reflexivity|]. split; [exact Hn|]. split; reflexivity.
Qed.

(** X1.  [Validate] assigns only [InstanceName], [Params] and
    [Secrets]: the client and every other field of the receiver are
    as before, whatever the arguments and whatever the parsers
    return. *)
Theorem Validate_frame (args : list string) (st : State A) :
  App (snd (validate args st)) = App st
  /\ Namespace (self (snd (validate args st))) = Namespace (self st)
  /\ Wait (self (snd (validate args st))) = Wait (self st)
  /\ Interval (self (snd (validate args st))) = Interval (self st)
  /\ Timeout (self (snd (validate args st))) = Timeout (self st)
  /\ ExternalID (self (snd (validate args st))) = ExternalID (self st)
  /\ ClassName (self (snd (validate args st))) = ClassName (self st)
  /\ PlanName (self (snd (validate args st))) = PlanName (self st)
  /\ RawParams (self (snd (validate args st))) = RawParams (self st)
  /\ JsonParams (self (snd (validate args st))) = JsonParams (self st)
  /\ RawSecrets (self (snd (validate args st))) = RawSecrets (self st).
Proof.
  destruct (Validate_cases args st)
    as [[_ ->]|[(arg0 & rest & _ & _ & ->)|[(arg0 & rest & e & _ & _ & _ & ->)
       |(arg0 & rest & _ & _ & _ & ->)]]];
    repeat split.
Qed.

(** X2.  [Validate] always returns (it indexes [args] only after the
    length check), and all it adds to the trace are calls of the
    parsers, at most two: it never calls the client and writes
    nothing. *)
Theorem Validate_only_parses (args : list string) (st : State A) :
  exists err calls,
    fst (validate args st) = Return err
    /\ trace (snd (validate args st)) = trace st ++ calls
    /\ Forall (fun e => isParserCall e = true) calls
    /\ (length calls <= 2)%nat.
Proof.
  destruct (Validate_cases args st)
    as [[_ ->]|[(arg0 & rest & _ & _ & ->)|[(arg0 & rest & e & _ & _ & _ & ->)
       |(arg0 & rest & _ & _ & _ & ->)]]].
  - exists (Some MissingInstanceName), []. rewrite app_nil_r.
    repeat split; [constructor|cbn; lia].
  - exists (Some ConflictingParamSources), []. cbn. rewrite app_nil_r.
    repeat split; [constructor|cbn; lia].
  - eexists _, [paramSource (self st)]. repeat split; [|cbn; lia].
    repeat constructor. unfold paramSource. destruct (bool_decide _); reflexivity.
  - eexists _, [paramSource (self st); CallParseKeyMaps (RawSecrets (self st))].
    cbn. rewrite <- app_assoc. repeat split; [|lia].
    repeat constructor. unfold paramSource. destruct (bool_decide _); reflexivity.
Qed.

(** X3.  [Validate] returns [nil] exactly when there is an argument,
    the two parameter sources are not both given, and both the
    parameter parser it picks and the secrets parser return no
    error. *)
Theorem Validate_succeeds_iff (args : list string) (st : State A) :
  fst (validate args st) = Return None
  <-> args ≠ [] /\ ~ conflicting (self st)
      /\ snd (param_result (self st)) = None
      /\ snd (ParseKeyMaps (RawSecrets (self st))) = None.
Proof.
  destruct (Validate_cases args st)
    as [[-> ->]|[(arg0 & rest & -> & Hc & ->)|[(arg0 & rest & e & -> & Hn & He & ->)
       |(arg0 & rest & -> & Hn & He & ->)]]]; cbn [fst secretsStep].
  - split; [discriminate|]. intros [Hne _]. contradiction.
  - split; [discriminate|]. intros (_ & Hn & _). contradiction.
  - split; [discriminate|]. intros (_ & _ & He' & _). congruence.
  - cbn [self afterParams RawSecrets set_Params set_InstanceName].
    destruct (snd (ParseKeyMaps (RawSecrets (self st)))) as [e|]; cbn.
    + split; [discriminate|]. intros (_ & _ & _ & Hs). discriminate Hs.
    + split; [|reflexivity]. intros _. repeat split; [discriminate|exact Hn|exact He].
Qed.

(** X4.  After a successful [Validate] the receiver holds the first
    argument as [InstanceName], the value of the parameter parser in
    [Params] and the value of the secrets parser in [Secrets], whatever
    these fields held before; the two parser calls are the only new
    events. *)
Theorem Validate_success_state (arg0 : string) (rest : list string) (st : State A) :
  fst (validate (arg0 :: rest) st) = Return None ->
  InstanceName (self (snd (validate (arg0 :: rest) st))) = arg0
  /\ Params (self (snd (validate (arg0 :: rest) st))) = fst (param_result (self st))
  /\ Secrets (self (snd (validate (arg0 :: rest) st)))
     = fst (ParseKeyMaps (RawSecrets (self st)))
  /\ trace (snd (validate (arg0 :: rest) st))
     = trace st ++ [paramSource (self st); CallParseKeyMaps (RawSecrets (self st))].
Proof.
  destruct (Validate_cases (arg0 :: rest) st)
    as [[Habs _]|[(a & r & _ & _ & ->)|[(a & r & e & _ & _ & _ & ->)
       |(a & r & Heq & _ & _ & ->)]]]; try discriminate.
  injection Heq as <- <-. intros _. cbn. rewrite <- app_assoc. repeat split.
Qed.

(** X5.  When the parameter parser fails, [Validate] has already
    stored what the parser returned in [Params]; it stops there, so
    [Secrets] keeps its old value and the secrets parser is not
    called. *)
Theorem Validate_param_failure_state
    (arg0 : string) (rest : list string) (st : State A) (e : error) :
  ~ conflicting (self st) ->
  snd (param_result (self st)) = Some e ->
  Params (self (snd (validate (arg0 :: rest) st))) = fst (param_result (self st))
  /\ Secrets (self (snd (validate (arg0 :: rest) st))) = Secrets (self st)
  /\ trace (snd (validate (arg0 :: rest) st)) = trace st ++ [paramSource (self st)].
Proof.
  intros Hn He. rewrite Validate_parse by exact Hn. rewrite He. repeat split.
Qed.

(** X6.  When the secrets parser fails after the parameters parsed,
    the failed validation leaves the parsed parameters in [Params] and
    what the secrets parser returned in [Secrets]. *)
Theorem Validate_secret_failure_state
    (arg0 : string) (rest : list string) (st : State A) (e : error) :
  ~ conflicting (self st) ->
  snd (param_result (self st)) = None ->
  snd (ParseKeyMaps (RawSecrets (self st))) = Some e ->
  fst (validate (arg0 :: rest) st) = Return (Some (Errorf1 "invalid --secret value" e))
  /\ Params (self (snd (validate (arg0 :: rest) st))) = fst (param_result (self st))
  /\ Secrets (self (snd (validate (arg0 :: rest) st)))
     = fst (ParseKeyMaps (RawSecrets (self st))).
Proof.
  intros Hn Hp Hs. rewrite Validate_parse by exact Hn. rewrite Hp.
  unfold secretsStep. cbn [fst snd self afterParams RawSecrets set_Params set_InstanceName].
  rewrite Hs. repeat split.
Qed.

(** X7.  The outcome of [Validate] on a non-empty argument list
    depends only on [JsonParams], [RawParams] and [RawSecrets]: not on
    what the arguments are (an empty string is taken as a name like
    any other), nor on the other fields, the client or the trace. *)
Theorem Validate_result_depends_on_inputs
    (arg1 arg2 : string) (rest1 rest2 : list string) (st1 st2 : State A) :
  JsonParams (self st1) = JsonParams (self st2) ->
  RawParams (self st1) = RawParams (self st2) ->
  RawSecrets (self st1) = RawSecrets (self st2) ->
  fst (validate (arg1 :: rest1) st1) = fst (validate (arg2 :: rest2) st2).
Proof.
  intros Hj Hr Hs.
  assert (Hres : param_result (self st1) = param_result (self st2)).
  { unfold paramResult. rewrite Hj, Hr. reflexivity. }
  assert (Hctx : paramContext (self st1) = paramContext (self st2)).
  { unfold paramContext. rewrite Hj. reflexivity. }
  destruct (conflicting_or_not (self st1)) as [Hc|Hn].
  - assert (Hc2 : conflicting (self st2)).
    { unfold conflicting in *. rewrite <- Hj, <- Hr. exact Hc. }
    rewrite !Validate_conflict by assumption. reflexivity.
  - assert (Hn2 : ~ conflicting (self st2)).
    { unfold conflicting in *. rewrite <- Hj, <- Hr. exact Hn. }
    rewrite (Validate_parse _ _ _ arg1 rest1 st1 Hn), (Validate_parse _ _ _ arg2 rest2 st2 Hn2).
    rewrite Hres, Hctx.
    destruct (snd (param_result (self st2))); [reflexivity|].
    unfold secretsStep. cbn [fst self afterParams RawSecrets set_Params set_InstanceName].
    rewrite Hs. reflexivity.
Qed.

(** X8.  Validating twice with the same arguments changes nothing
    more: the second call returns what the first returned and leaves
    the receiver as the first left it. *)
Theorem Validate_idempotent (args : list string) (st : State A) :
  fst (validate args (snd (validate args st))) = fst (validate args st)
  /\ self (snd (validate args (snd (validate args st)))) = self (snd (validate args st)).
Proof.
  destruct (Validate_cases args st)
    as [[-> ->]|[(arg0 & rest & -> & Hc & ->)|[(arg0 & rest & e & -> & Hn & He & ->)
       |(arg0 & rest & -> & Hn & He & ->)]]]; cbn [snd].
  - split; reflexivity.
  - rewrite (Validate_conflict _ _ _ arg0 rest (named arg0 st)) by exact Hc.
    split; reflexivity.
  - rewrite (Validate_parse _ _ _ arg0 rest (after_params arg0 st)) by exact Hn.
    change (param_result (self (after_params arg0 st))) with (param_result (self st)).
    rewrite He. split; reflexivity.
  - unfold secretsStep at 1 3 4. cbn [fst snd].
    match goal with |- context [validate _ ?s] =>
      rewrite (Validate_parse _ _ _ arg0 rest s) by exact Hn;
      change (param_result (self s)) with (param_result (self st))
    end.
    rewrite He. split; reflexivity.
Qed.

End ValidateFurther.

(** * Further properties of [Provision] and [Run] *)

Section ProvisionFurther.

Import instance.

Context {A : Type} `{!servicecatalog.SvcatClient A}.

Local Abbreviation provisionCall st :=
  (servicecatalog.Provision (App st) (InstanceName (self st)) (ClassName (self st))
     (PlanName (self st)) (optsOf (self st))).

Local Abbreviation provisionEvent st :=
  (CallProvision (InstanceName (self st)) (ClassName (self st)) (PlanName (self st))
     (servicecatalog.mkProvisionOptions (ExternalID (self st)) (Namespace (self st))
        (Params (self st)) (Secrets (self st)))).

(** The poll [Provision] makes for an instance. *)
Local Abbreviation waitCall st app1 inst :=
  (servicecatalog.WaitForInstance app1 (v1beta1.Namespace inst) (v1beta1.Name inst)
     (Interval (self st)) (Timeout (self st))).

(** The four ways through [Provision]: the client's [Provision]
    fails; no wait; wait with a [nil] instance; wait and poll. *)
Lemma Provision_cases (st : State A) :
  (exists inst e app1,
      provisionCall st = ((inst, Some e), app1)
      /\ Provision st
         = (Return (Some e), mkState (self st) app1 (trace st ++ [provisionEvent st])))
  \/ (exists inst app1,
        provisionCall st = ((inst, None), app1) /\ Wait (self st) = false
        /\ Provision st
           = (Return None,
              mkState (self st) app1
                (trace st ++ [provisionEvent st; WriteInstanceDetails inst])))
  \/ (exists app1,
        provisionCall st = ((None, None), app1) /\ Wait (self st) = true
        /\ Provision st
           = (Panic "invalid memory address or nil pointer dereference",
              mkState (self st) app1 (trace st ++ [provisionEvent st; waitingLine])))
  \/ (exists inst app1 final werr app2,
        provisionCall st = ((Some inst, None), app1) /\ Wait (self st) = true
        /\ waitCall st app1 inst = ((final, werr), app2)
        /\ Provision st
           = (Return werr,
              mkState (self st) app2
                (trace st ++
                 [provisionEvent st; waitingLine;
                  CallWaitForInstance (v1beta1.Namespace inst) (v1beta1.Name inst)
                    (Interval (self st)) (Timeout (self st));
                  WriteInstanceDetails
                    (match werr with None => final | Some _ => Some inst end)]))).
Proof.
  destruct (provisionCall st) as [[inst [e|]] app1] eqn:Hp.
  - left. exists inst, e, app1. split; [reflexivity|]. apply (Provision_failed _ _ _ _ Hp).
  - right. destruct (Wait (self st)) eqn:Hw.
    + right. destruct inst as [inst|].
      * right.
        destruct (waitCall st app1 inst) as [[final werr] app2] eqn:Hf.
        exists inst, app1, final, werr, app2.
        split; [reflexivity|]. split; [reflexivity|]. split; [exact Hf|].
        apply (Provision_waited _ _ _ _ _ _ Hw Hp Hf).
      * left. exists app1. split; [reflexivity|]. split; [reflexivity|].
        apply (Provision_nil_instance _ _ Hw Hp).
    + left. exists inst, app1. split; [reflexivity|]. split; [reflexivity|].
      apply (Provision_no_wait _ _ _ Hw Hp).
Qed.

(** X9.  Without [--wait], when the client's [Provision] returns no
    error the command writes the returned instance once and returns
    [nil]; it prints no waiting line and does not poll.  The instance
    is not looked into, so a [nil] instance is passed on as it is. *)
Theorem Provision_without_wait (st : State A) inst app1 :
  Wait (self st) = false ->
  provisionCall st = ((inst, None), app1) ->
  fst (Provision st) = Return None
  /\ trace (snd (Provision st))
     = trace st ++ [provisionEvent st; WriteInstanceDetails inst]
  /\ App (snd (Provision st)) = app1.
Proof.
  intros Hw Hp. rewrite (Provision_no_wait _ _ _ Hw Hp). repeat split.
Qed.

(** X10.  With [--wait], when the client's [Provision] returns a [nil]
    instance and a [nil] error, the command panics on
    [instance.Namespace]: the waiting line has been printed, the poll
    is not made and no instance details are written. *)
Theorem Provision_nil_instance_panics (st : State A) app1 :
  Wait (self st) = true ->
  provisionCall st = ((None, None), app1) ->
  (exists reason, fst (Provision st) = Panic reason)
  /\ trace (snd (Provision st)) = trace st ++ [provisionEvent st; waitingLine].
Proof.
  intros Hw Hp. rewrite (Provision_nil_instance _ _ Hw Hp).
  split; [eexists; reflexivity|reflexivity].
Qed.

(** X11.  [Provision] reads the receiver and never assigns to it: on
    every path, the panic included, the command's fields are as
    before. *)
Theorem Provision_keeps_receiver (st : State A) :
  self (snd (Provision st)) = self st.
Proof.
  destruct (Provision_cases st)
    as [(inst & e & app1 & _ & ->)|[(inst & app1 & _ & _ & ->)
       |[(app1 & _ & _ & ->)|(inst & app1 & final & werr & app2 & _ & _ & _ & ->)]]];
    reflexivity.
Qed.

(** X12.  [Provision] makes up no error of its own: an error it
    returns is the one the client's [Provision] returned, or, in wait
    mode after a successful [Provision], the one [WaitForInstance]
    returned. *)
Theorem Provision_errors_come_from_client (st : State A) (e : error) :
  fst (Provision st) = Return (Some e) ->
  snd (fst (provisionCall st)) = Some e
  \/ (Wait (self st) = true
      /\ exists inst,
          fst (provisionCall st) = (Some inst, None)
          /\ snd (fst (waitCall st (snd (provisionCall st)) inst)) = Some e).
Proof.
  destruct (Provision_cases st)
    as [(inst & e' & app1 & Hp & ->)|[(inst & app1 & Hp & Hw & ->)
       |[(app1 & Hp & Hw & ->)|(inst & app1 & final & werr & app2 & Hp & Hw & Hf & ->)]]];
    cbn [fst]; intros Hret; try discriminate.
  - left. rewrite Hp. cbn. congruence.
  - right. split; [exact Hw|]. exists inst. rewrite Hp. cbn [fst snd].
    split; [reflexivity|]. rewrite Hf. cbn. congruence.
Qed.

(** X13.  When [Provision] returns [nil] the instance details have
    been written, exactly once and last: the new events end with the
    one [WriteInstanceDetails]. *)
Theorem Provision_nil_means_written (st : State A) :
  fst (Provision st) = Return None ->
  exists before inst,
    trace (snd (Provision st)) = trace st ++ before ++ [WriteInstanceDetails inst]
    /\ Forall (fun e => isWriteInstanceDetails e = false) before.
Proof.
  destruct (Provision_cases st)
    as [(inst & e' & app1 & Hp & ->)|[(inst & app1 & Hp & Hw & ->)
       |[(app1 & Hp & Hw & ->)|(inst & app1 & final & werr & app2 & Hp & Hw & Hf & ->)]]];
    cbn [fst snd trace]; intros Hret; try discriminate.
  - exists [provisionEvent st], inst. split; [reflexivity|]. repeat constructor.
  - eexists [provisionEvent st; waitingLine; CallWaitForInstance _ _ _ _], _.
    split; [reflexivity|]. repeat constructor.
Qed.

(** X14.  In one run the command polls at most once and writes the
    instance details at most once; without [--wait] it neither polls
    nor prints the waiting line. *)
Theorem Provision_polls_and_writes_at_most_once (st : State A) :
  exists calls,
    trace (snd (Provision st)) = trace st ++ calls
    /\ (length (filter (fun e => isWaitForInstanceCall e = true) calls) <= 1)%nat
    /\ (length (filter (fun e => isWriteInstanceDetails e = true) calls) <= 1)%nat
    /\ (Wait (self st) = false ->
        Forall (fun e => isWaitForInstanceCall e = false /\ e ≠ waitingLine) calls).
Proof.
  destruct (Provision_cases st)
    as [(inst & e' & app1 & Hp & ->)|[(inst & app1 & Hp & Hw & ->)
       |[(app1 & Hp & Hw & ->)|(inst & app1 & final & werr & app2 & Hp & Hw & Hf & ->)]]];
    cbn [snd trace]; eexists; (split; [reflexivity|]).
  - split; [vm_compute; lia|]. split; [vm_compute; lia|]. intros _. repeat constructor. discriminate.
  - split; [vm_compute; lia|]. split; [vm_compute; lia|]. intros _.
    repeat constructor; discriminate.
  - split; [vm_compute; lia|]. split; [vm_compute; lia|]. intros Hw'. congruence.
  - split; [vm_compute; lia|]. split; [vm_compute; lia|]. intros Hw'. congruence.
Qed.

End ProvisionFurther.

(** * [Validate] followed by [Run] *)

Section Composition.

Import instance servicecatalogfakes.

(** X15.  When [Validate] has returned [nil], running the command
    calls the client's [Provision], once, with the first positional
    argument as the instance name, the class, plan, external id and
    namespace the command had, and the values the parameter parser
    and the secrets parser returned: that call is the one [Provision]
    event of the run, and the client the run leaves is the one the
    client's [Provision] returned for exactly these arguments (or the
    one the poll made from it). *)
Theorem Validate_then_Run_passes_parsed_values
    (A : Type) (client : servicecatalog.SvcatClient A)
    (ParseVariableJSON : string -> option ParameterSet * option error)
    (ParseVariableAssignments : list string -> option ParameterSet * option error)
    (ParseKeyMaps : list string -> option SecretReferenceSet * option error)
    (arg0 : string) (rest : list string) (st : State A) :
  fst (Validate ParseVariableJSON ParseVariableAssignments ParseKeyMaps (arg0 :: rest) st)
    = Return None ->
  (exists later,
    trace (snd (Run (snd (Validate ParseVariableJSON ParseVariableAssignments ParseKeyMaps
                            (arg0 :: rest) st))))
    = trace st
      ++ [paramSource (self st); CallParseKeyMaps (RawSecrets (self st))]
      ++ CallProvision arg0 (ClassName (self st)) (PlanName (self st))
           (servicecatalog.mkProvisionOptions (ExternalID (self st)) (Namespace (self st))
              (fst (paramResult ParseVariableJSON ParseVariableAssignments (self st)))
              (fst (ParseKeyMaps (RawSecrets (self st)))))
         :: later
    /\ Forall (fun e => isProvisionCall e = false) later)
  /\ (App (snd (Run (snd (Validate ParseVariableJSON ParseVariableAssignments ParseKeyMaps
                            (arg0 :: rest) st))))
        = snd (servicecatalog.Provision (App st) arg0 (ClassName (self st))
                 (PlanName (self st))
                 (servicecatalog.mkProvisionOptions (ExternalID (self st))
                    (Namespace (self st))
                    (fst (paramResult ParseVariableJSON ParseVariableAssignments (self st)))
                    (fst (ParseKeyMaps (RawSecrets (self st))))))
      \/ exists inst,
          Wait (self st) = true
          /\ App (snd (Run (snd (Validate ParseVariableJSON ParseVariableAssignments
                                   ParseKeyMaps (arg0 :: rest) st))))
             = snd (servicecatalog.WaitForInstance
                      (snd (servicecatalog.Provision (App st) arg0 (ClassName (self st))
                              (PlanName (self st))
                              (servicecatalog.mkProvisionOptions (ExternalID (self st))
                                 (Namespace (self st))
                                 (fst (paramResult ParseVariableJSON
                                         ParseVariableAssignments (self st)))
                                 (fst (ParseKeyMaps (RawSecrets (self st)))))))
                      (v1beta1.Namespace inst) (v1beta1.Name inst)
                      (Interval (self st)) (Timeout (self st)))).
Proof.
  destruct (Validate_cases ParseVariableJSON ParseVariableAssignments ParseKeyMaps
              (arg0 :: rest) st)
    as [[Habs _]|[(a & r & _ & _ & ->)|[(a & r & e & _ & _ & _ & ->)
       |(a & r & Heq & _ & _ & ->)]]]; try discriminate.
  injection Heq as <- <-. intros _. unfold Run. split.
  - match goal with |- context [Provision ?s] =>
      destruct (Provision_trace s) as (later & -> & Hlater) end.
    exists later. split; [|exact Hlater].
    cbn. rewrite <- !app_assoc. reflexivity.
  - match goal with |- context [Provision ?s] =>
      destruct (Provision_client s) as [Happ|(inst & _ & Hw & Happ)] end.
    + left. exact Happ.
    + right. exists inst. split; [exact Hw|exact Happ].
Qed.

Local Abbreviation validateTest :=
  (Validate (A:=FakeSvcatClient) servicecatalogfakes.ParseVariableJSON
     parameters.ParseVariableAssignments parameters.ParseKeyMaps).

Lemma Validate_then_Run_passes_parsed_values_witness :
  (exists later,
    trace (snd (Run (snd (validateTest ["bananainstance"] (start bananaCmd readyClient)))))
    = [CallParseVariableAssignments ["a=b"]; CallParseKeyMaps [];
       CallProvision "bananainstance" "mysqldb" "free"
         (servicecatalog.mkProvisionOptions "" "foobarnamespace"
            (Some {["a" := JString "b"]}) (Some ∅))] ++ later)
  /\ provisionCallCount
       (App (snd (Run (snd (validateTest ["bananainstance"]
                              (start bananaCmd readyClient)))))) = 1%nat.
Proof.
  destruct (Validate_then_Run_passes_parsed_values FakeSvcatClient _
              servicecatalogfakes.ParseVariableJSON parameters.ParseVariableAssignments
              parameters.ParseKeyMaps "bananainstance" [] (start bananaCmd readyClient))
    as ((later & Htrace & _) & Hclient); [vm_compute; reflexivity|].
  split.
  - exists later. rewrite Htrace. vm_compute. reflexivity.
  - destruct Hclient as [->|(inst & _ & ->)]; reflexivity.
Defined.

Lemma Validate_success_state_witness :
  InstanceName (self (snd (validateTest ["bananainstance"] (start bananaCmd readyClient))))
    = "bananainstance"
  /\ Params (self (snd (validateTest ["bananainstance"] (start bananaCmd readyClient))))
     = Some {["a" := JString "b"]}
  /\ Secrets (self (snd (validateTest ["bananainstance"] (start bananaCmd readyClient))))
     = Some ∅.
Proof.
  destruct (Validate_success_state servicecatalogfakes.ParseVariableJSON
              parameters.ParseVariableAssignments parameters.ParseKeyMaps
              "bananainstance" [] (start bananaCmd readyClient))
    as (Hname & Hparams & Hsecrets & _); [vm_compute; reflexivity|].
  split; [exact Hname|]. split.
  - rewrite Hparams. vm_compute. reflexivity.
  - rewrite Hsecrets. reflexivity.
Defined.

Lemma Validate_param_failure_state_witness :
  Params (self (snd (validateTest ["bananainstance"]
                       (start (set_Params (Some ∅) badJSONCmd) readyClient)))) = None
  /\ Secrets (self (snd (validateTest ["bananainstance"]
                          (start (set_Params (Some ∅) badJSONCmd) readyClient)))) = None
  /\ trace (snd (validateTest ["bananainstance"]
                   (start (set_Params (Some ∅) badJSONCmd) readyClient)))
     = [CallParseVariableJSON "foo=bar"].
Proof.
  destruct (Validate_param_failure_state servicecatalogfakes.ParseVariableJSON
              parameters.ParseVariableAssignments parameters.ParseKeyMaps
              "bananainstance" [] (start (set_Params (Some ∅) badJSONCmd) readyClient)
              (mkError "invalid parameters (foo=bar)"))
    as (Hparams & Hsecrets & Htrace).
  - intros [_ Hraw]. apply Hraw. reflexivity.
  - vm_compute. reflexivity.
  - split; [rewrite Hparams; vm_compute; reflexivity|].
    split; [exact Hsecrets|]. rewrite Htrace. vm_compute. reflexivity.
Defined.

Lemma Validate_secret_failure_state_witness :
  fst (validateTest ["bananainstance"] (start badSecretCmd readyClient))
    = Return (Some (mkError
        "invalid --secret value (invalid parameter (foo=bar), must be in MAP[KEY] format)"))
  /\ Params (self (snd (validateTest ["bananainstance"] (start badSecretCmd readyClient))))
     = Some ∅
  /\ Secrets (self (snd (validateTest ["bananainstance"] (start badSecretCmd readyClient))))
     = None.
Proof.
  destruct (Validate_secret_failure_state servicecatalogfakes.ParseVariableJSON
              parameters.ParseVariableAssignments parameters.ParseKeyMaps
              "bananainstance" [] (start badSecretCmd readyClient)
              (parameters.MalformedSecretReference "foo=bar"))
    as (Hres & Hparams & Hsecrets).
  - intros [Hj _]. apply Hj. reflexivity.
  - reflexivity.
  - reflexivity.
  - split; [exact Hres|]. split; [exact Hparams|exact Hsecrets].
Defined.

Lemma Validate_result_depends_on_inputs_witness :
  fst (validateTest ["bananainstance"; "extra"] (start bananaCmd readyClient))
  = fst (validateTest [""] (start (set_Params (Some ∅) bananaCmd) failingClient)).
Proof.
  apply (Validate_result_depends_on_inputs servicecatalogfakes.ParseVariableJSON
           parameters.ParseVariableAssignments parameters.ParseKeyMaps);
    reflexivity.
Defined.

Lemma Provision_without_wait_witness :
  fst (Provision (start zero nilInstanceClient)) = Return None
  /\ trace (snd (Provision (start zero nilInstanceClient)))
     = [CallProvision "" "" "" (optsOf zero); WriteInstanceDetails None]
  /\ waitForInstanceCallCount (App (snd (Provision (start zero nilInstanceClient)))) = 0%nat.
Proof.
  destruct (Provision_without_wait (start zero nilInstanceClient) None
              (mkFake (None, None) (Some readyInstance, None) 1 0))
    as (Hres & Htrace & Happ); [reflexivity|reflexivity|].
  split; [exact Hres|]. split; [exact Htrace|]. rewrite Happ. reflexivity.
Defined.

Lemma Provision_nil_instance_panics_witness :
  (exists reason, fst (Provision (start waitingCmd nilInstanceClient)) = Panic reason)
  /\ trace (snd (Provision (start waitingCmd nilInstanceClient)))
     = [CallProvision "bananainstance" "mysqldb" "free" (optsOf waitingCmd); waitingLine].
Proof.
  apply (Provision_nil_instance_panics (start waitingCmd nilInstanceClient)
           (mkFake (None, None) (Some readyInstance, None) 1 0)); reflexivity.
Defined.

Lemma Provision_errors_come_from_client_witness :
  snd (fst (servicecatalog.Provision timingOutClient "bananainstance" "mysqldb" "free"
              (optsOf waitingCmd))) = Some PollTimedOut
  \/ (Wait waitingCmd = true
      /\ exists inst,
          fst (servicecatalog.Provision timingOutClient "bananainstance" "mysqldb" "free"
                 (optsOf waitingCmd)) = (Some inst, None)
          /\ snd (fst (servicecatalog.WaitForInstance
                         (snd (servicecatalog.Provision timingOutClient "bananainstance"
                                 "mysqldb" "free" (optsOf waitingCmd)))
                         (v1beta1.Namespace inst) (v1beta1.Name inst)
                         1000000000 5000000000))
             = Some PollTimedOut).
Proof.
  apply (Provision_errors_come_from_client (start waitingCmd timingOutClient) PollTimedOut).
  reflexivity.
Defined.

Lemma Provision_nil_means_written_witness :
  exists before inst,
    trace (snd (Provision (start waitingCmd readyClient)))
      = [] ++ before ++ [WriteInstanceDetails inst]
    /\ Forall (fun e => isWriteInstanceDetails e = false) before.
Proof.
  apply (Provision_nil_means_written (start waitingCmd readyClient)). reflexivity.
Defined.

End Composition.
